(** * SkyLift: the WiGLE converter and the network model

    A shallow embedding of [extras/wigle_to_skylift.py] and of
    [src/models/network.py].

    Conventions of the embedding.
    - A Python [int] is a [Z].
    - A Python [float] that is finite is the rational number it denotes, a [Q].
      The programs only compare, negate and take absolute values of floats;
      these operations are exact on finite floats, so nothing is rounded in
      the model.  geopy refuses coordinates that are not finite, so the
      geodesic distance is always a finite float.
    - A Python [str] is a [string]; a Python list is a [list].
    - A raised exception is a value of [exn]; code that can raise returns
      a [result]. *)

From Stdlib Require Import ZArith QArith Qabs Lia Lqa Bool Ascii String.
From Stdlib Require Import List Sorting.Sorted Sorting.Permutation.
From stdpp Require Import base list strings pretty gmap.
Import ListNotations.

Local Open Scope Z_scope.

(** ** Python values *)

(** The exceptions the modelled code can raise. *)
Inductive exn : Type :=
  | IndexError
  | ValueError
  | TypeError
  | UnboundLocalError
  | SystemExit (code : Z).

Inductive result (A : Type) : Type :=
  | Ok (a : A)
  | Raise (e : exn).
Arguments Ok {A} a.
Arguments Raise {A} e.

(** Comparison of two finite floats, [x < y] and [x > y]. *)
Definition float_lt (x y : Q) : bool := negb (Qle_bool y x).
Definition float_gt (x y : Q) : bool := float_lt y x.
Definition float_le (x y : Q) : bool := Qle_bool x y.

Lemma float_lt_iff x y : float_lt x y = true <-> (x < y)%Q.
Proof.
  unfold float_lt. rewrite negb_true_iff, <- not_true_iff_false, Qle_bool_iff.
  split; [apply Qnot_le_lt | apply Qlt_not_le].
Qed.

Lemma float_lt_false_iff x y : float_lt x y = false <-> (y <= x)%Q.
Proof.
  unfold float_lt. rewrite negb_false_iff. apply Qle_bool_iff.
Qed.

Lemma float_gt_iff x y : float_gt x y = true <-> (y < x)%Q.
Proof. apply float_lt_iff. Qed.

Lemma float_gt_false_iff x y : float_gt x y = false <-> (x <= y)%Q.
Proof. apply float_lt_false_iff. Qed.

(** ** GeoMath: [get_geo_distance] and [calc_geo_rssi] *)

(** A lat/lon point, the tuple [(lat, lon)]: [p[0]] is [fst p], [p[1]] is
    [snd p]. *)
Definition point : Type := (Q * Q)%type.

Module GeoMath.
Section Geodesic.

(** [geopy.distance.geodesic(p1, p2).m], the ellipsoidal distance in
    meters.  It belongs to the geopy library, so it is a parameter here. *)
Variable geodesic : point -> point -> Q.

Definition get_geo_distance (p1 p2 : point) : Q :=
  let d := geodesic p1 p2 in
  if float_lt (fst p2) (fst p1) || float_gt (snd p2) (snd p1)
  then (- d)%Q else d.

Definition calc_geo_rssi (p1 p2 : point) : Z :=
  let m := geodesic p1 p2 in
  if float_gt m 1000 then -90
  else if float_gt m 500 then -80
  else if float_gt m 250 then -75
  else if float_gt m 125 then -65
  else if float_gt m 50 then -55
  else -50.

End Geodesic.

(** A stand-in distance for running the definitions on concrete points:
    the taxicab distance in degrees.  It is only used to evaluate examples. *)
Definition taxicab (p q : point) : Q :=
  (Qabs (fst p - fst q) + Qabs (snd p - snd q))%Q.

Lemma taxicab_nonneg p q : (0 <= taxicab p q)%Q.
Proof.
  unfold taxicab.
  pose proof (Qabs_nonneg (fst p - fst q)).
  pose proof (Qabs_nonneg (snd p - snd q)). lra.
Qed.

Lemma taxicab_refl p : (taxicab p p == 0)%Q.
Proof.
  unfold taxicab.
  assert (H1 : (fst p - fst p == 0)%Q) by ring.
  assert (H2 : (snd p - snd p == 0)%Q) by ring.
  rewrite H1, H2. reflexivity.
Qed.

End GeoMath.

(** ** Theorems about GeoMath *)

Module GeoMathFacts.
Import GeoMath.

Ltac rssi_cases :=
  unfold calc_geo_rssi;
  repeat match goal with
  | |- context [float_gt ?a ?b] =>
      let E := fresh "E" in
      destruct (float_gt a b) eqn:E;
      [apply float_gt_iff in E | apply float_gt_false_iff in E]
  end.

(** The value of [calc_geo_rssi] only depends on the distance. *)
Lemma calc_geo_rssi_range geodesic p1 p2 :
  -90 <= calc_geo_rssi geodesic p1 p2 <= -50.
Proof. rssi_cases; lia. Qed.

(** C1. [calc_geo_rssi] is the step function of the geodesic distance [d]
    given by the table: -90 above 1000, -80 on (500, 1000], -75 on
    (250, 500], -65 on (125, 250], -55 on (50, 125] and -50 up to 50; at the
    boundaries 1000, 500, 250, 125 and 50 the closer bucket is taken; and a
    larger distance never gives a larger value. *)
Theorem calc_geo_rssi_step_table (geodesic : point -> point -> Q) (p1 p2 : point) :
  ((1000 < geodesic p1 p2)%Q -> calc_geo_rssi geodesic p1 p2 = -90) /\
  ((500 < geodesic p1 p2 <= 1000)%Q -> calc_geo_rssi geodesic p1 p2 = -80) /\
  ((250 < geodesic p1 p2 <= 500)%Q -> calc_geo_rssi geodesic p1 p2 = -75) /\
  ((125 < geodesic p1 p2 <= 250)%Q -> calc_geo_rssi geodesic p1 p2 = -65) /\
  ((50 < geodesic p1 p2 <= 125)%Q -> calc_geo_rssi geodesic p1 p2 = -55) /\
  ((geodesic p1 p2 <= 50)%Q -> calc_geo_rssi geodesic p1 p2 = -50) /\
  ((geodesic p1 p2 == 1000)%Q -> calc_geo_rssi geodesic p1 p2 = -80) /\
  ((geodesic p1 p2 == 500)%Q -> calc_geo_rssi geodesic p1 p2 = -75) /\
  ((geodesic p1 p2 == 250)%Q -> calc_geo_rssi geodesic p1 p2 = -65) /\
  ((geodesic p1 p2 == 125)%Q -> calc_geo_rssi geodesic p1 p2 = -55) /\
  ((geodesic p1 p2 == 50)%Q -> calc_geo_rssi geodesic p1 p2 = -50) /\
  (forall q1 q2 : point,
      (geodesic p1 p2 <= geodesic q1 q2)%Q ->
      calc_geo_rssi geodesic q1 q2 <= calc_geo_rssi geodesic p1 p2).
Proof.
  repeat split; intros; rssi_cases; try reflexivity; try lia; exfalso; lra.
Qed.

(** The table evaluated: a distance of exactly 1000 (degrees, for the
    stand-in distance) falls in the -80 bucket, one just above in -90. *)
Example calc_geo_rssi_step_table_witness :
  calc_geo_rssi taxicab (0, 0)%Q (1000, 0)%Q = -80 /\
  calc_geo_rssi taxicab (0, 0)%Q (1000, 1 # 2)%Q = -90.
Proof.
  split.
  - apply (calc_geo_rssi_step_table taxicab (0, 0)%Q (1000, 0)%Q). reflexivity.
  - apply (calc_geo_rssi_step_table taxicab (0, 0)%Q (1000, 1 # 2)%Q). reflexivity.
Defined.

(** C8. The signed distance has the geodesic distance as its absolute
    value, is negative exactly when the other point lies at a smaller
    latitude or a larger longitude (and the distance is not zero), and is
    zero from a point to itself. *)
Theorem get_geo_distance_signed (geodesic : point -> point -> Q)
    (geodesic_nonneg : forall p q, (0 <= geodesic p q)%Q)
    (geodesic_refl : forall p, (geodesic p p == 0)%Q)
    (reference other : point) :
  (Qabs (get_geo_distance geodesic reference other) == geodesic reference other)%Q /\
  ((get_geo_distance geodesic reference other < 0)%Q <->
     ((fst other < fst reference)%Q \/ (snd reference < snd other)%Q) /\
     ~ (geodesic reference other == 0)%Q) /\
  (get_geo_distance geodesic reference reference == 0)%Q.
Proof.
  pose proof (geodesic_nonneg reference other) as Hd.
  unfold get_geo_distance. split; [|split; [split|]].
  - destruct (_ || _).
    + rewrite Qabs_opp. apply Qabs_pos, Hd.
    + apply Qabs_pos, Hd.
  - destruct (_ || _) eqn:E; intros Hneg.
    + apply orb_true_iff in E. rewrite float_lt_iff, float_gt_iff in E.
      split; [exact E | intros Hz; lra].
    + lra.
  - intros [Hc Hnz]. rewrite <- float_lt_iff, <- float_gt_iff, <- orb_true_iff in Hc.
    rewrite Hc.
    assert (~ (geodesic reference other <= 0)%Q) by (intros Hle; apply Hnz; lra).
    lra.
  - assert (E : float_lt (fst reference) (fst reference)
                || float_gt (snd reference) (snd reference) = false).
    { apply orb_false_iff. rewrite float_lt_false_iff, float_gt_false_iff. lra. }
    rewrite E. apply geodesic_refl.
Qed.

Example get_geo_distance_signed_witness :
  (Qabs (get_geo_distance taxicab (52, 13)%Q (51, 13)%Q) == 1)%Q /\
  (get_geo_distance taxicab (52, 13)%Q (51, 13)%Q < 0)%Q.
Proof.
  pose proof (get_geo_distance_signed taxicab taxicab_nonneg taxicab_refl
                (52, 13)%Q (51, 13)%Q) as [Habs [Hneg _]].
  split.
  - rewrite Habs. reflexivity.
  - apply Hneg. split; [left; reflexivity | intros H; vm_compute in H; discriminate H].
Defined.

End GeoMathFacts.

(** ** Python built-ins used by the model layer *)

#[global] Instance result_ret : MRet result := fun A a => Ok a.
#[global] Instance result_bind : MBind result := fun A B k m =>
  match m with
  | Ok a => k a
  | Raise e => Raise e
  end.

(** A method of an object of class [S]: it receives [self] and returns its
    value together with [self] as the call leaves it. *)
Definition method (S A : Type) : Type := S -> A * S.

#[global] Instance method_ret {S} : MRet (method S) := fun A a self => (a, self).
#[global] Instance method_bind {S} : MBind (method S) := fun A B k m self =>
  let '(a, self') := m self in k a self'.

Definition self_get {S} : method S S := fun self => (self, self).
Definition self_modify {S} (f : S -> S) : method S unit := fun self => (tt, f self).

(** The value a call returns, and the object after the call. *)
Definition returns {S A} (m : method S A) (self : S) : A := fst (m self).
Definition leaves {S A} (m : method S A) (self : S) : S := snd (m self).

(** Truthiness: an empty string, an empty list, [None] and [0] are false. *)
Definition str_truthy (s : string) : bool :=
  match s with EmptyString => false | String _ _ => true end.
Definition list_truthy {A} (l : list A) : bool :=
  match l with [] => false | _ :: _ => true end.
Definition opt_str_truthy (s : option string) : bool :=
  match s with None => false | Some s => str_truthy s end.
Definition opt_int_truthy (x : option Z) : bool :=
  match x with None => false | Some v => negb (v =? 0) end.

(** [x if x else d] for an optional integer argument [x]; [d] is only
    evaluated when [x] is falsy. *)
Definition if_truthy_else (x : option Z) (d : result Z) : result Z :=
  match x with
  | Some v => if opt_int_truthy x then Ok v else d
  | None => d
  end.

(** [s.split(sep)] for a one-character separator: the pieces between the
    separators, empty pieces included; never the empty list. *)
Fixpoint str_split (sep : ascii) (s : string) : list string :=
  match s with
  | EmptyString => [EmptyString]
  | String c s' =>
      if Ascii.eqb c sep then EmptyString :: str_split sep s'
      else match str_split sep s' with
           | [] => [String c EmptyString]
           | w :: ws => String c w :: ws
           end
  end.

(** [sep.join(l)]. *)
Fixpoint str_join (sep : string) (l : list string) : string :=
  match l with
  | [] => EmptyString
  | x :: l' =>
      match l' with
      | [] => x
      | _ :: _ => (x ++ sep ++ str_join sep l')%string
      end
  end.

(** [l[-1]]. *)
Definition index_last {A} (l : list A) : result A :=
  match rev l with
  | [] => Raise IndexError
  | x :: _ => Ok x
  end.

(** [min(l)] and [max(l)] of a list of integers. *)
Definition py_min (l : list Z) : result Z :=
  match l with
  | [] => Raise ValueError
  | x :: l' => Ok (fold_left Z.min l' x)
  end.
Definition py_max (l : list Z) : result Z :=
  match l with
  | [] => Raise ValueError
  | x :: l' => Ok (fold_left Z.max l' x)
  end.

(** An index of a slice brought into [0, len]: a negative index counts from
    the end. *)
Definition slice_index (len i : Z) : Z :=
  if i <? 0 then Z.max (i + len) 0 else Z.min i len.

(** [l[start:stop]]. *)
Definition py_slice {A} (l : list A) (start stop : Z) : list A :=
  let len := Z.of_nat (length l) in
  let lo := slice_index len start in
  let hi := slice_index len stop in
  firstn (Z.to_nat (hi - lo)) (skipn (Z.to_nat lo) l).

(** [sorted(l, key=...)]: a stable sort.  [before x y] says that [x] may
    stand before [y]: [key x <= key y], or [key y <= key x] under
    [reverse=True].  Elements with equal keys keep their order, as in
    Python, also under [reverse=True]. *)
Section Sorted.
Context {A : Type} (before : A -> A -> bool).

Fixpoint insert_sorted (x : A) (l : list A) : list A :=
  match l with
  | [] => [x]
  | y :: l' => if before x y then x :: l else y :: insert_sorted x l'
  end.

Fixpoint py_sorted (l : list A) : list A :=
  match l with
  | [] => []
  | x :: l' => insert_sorted x (py_sorted l')
  end.
End Sorted.

Example str_split_ex1 : str_split "/" "/a/b/c.json" = [""; "a"; "b"; "c.json"]%string.
Proof. reflexivity. Qed.
Example str_split_ex2 : str_split "/" "a//" = ["a"; ""; ""]%string.
Proof. reflexivity. Qed.
Example py_slice_ex1 : py_slice [1; 2; 3; 4; 5] 1 3 = [2; 3].
Proof. reflexivity. Qed.
Example py_slice_ex2 : py_slice [1; 2; 3; 4; 5] 0 (-2) = [1; 2; 3].
Proof. reflexivity. Qed.
Example py_slice_ex3 : py_slice [1; 2; 3; 4; 5] 3 99 = [4; 5].
Proof. reflexivity. Qed.
Example py_sorted_ex1 :
  py_sorted (fun x y : Z * Z => fst y <=? fst x) [(1, 0); (3, 1); (1, 2); (3, 3)]
  = [(3, 1); (3, 3); (1, 0); (1, 2)].
Proof. reflexivity. Qed.

(** ** The model layer: [Network], [Meta], [Networks] *)

Module Network.
Record t : Type := mk {
  bssid : string;
  channel : Z;
  rssi : Z;
  lat : Q;
  lon : Q;
  ssid : option string;
  distance_x : option Q;
  distance_xy : option Q;
  distance_y : option Q;
  qos : option Z
}.

Definition bssid_as_hex_list_ino : method t string :=
  self ← self_get;
  let hex_str :=
    str_join ", " (map (fun x => ("0x" ++ x)%string) (str_split ":" (bssid self))) in
  mret ("{" ++ hex_str ++ "}")%string.

Definition channel_as_2pt4 : method t Z :=
  self ← self_get;
  mret (Z.max 0 (Z.min (channel self) 11)).
End Network.

Module Meta.
Record t : Type := mk {
  comment : option string;
  filepath : option string;
  lat : option Q;
  lon : option Q;
  radius : option Q;
  run : option Z;
  since : option Z;
  type : option string
}.
End Meta.

Module Networks.
Record t : Type := mk {
  meta : option Meta.t;
  networks : list Network.t;
  filename : string;
  n_wifi : Z;
  n_bt : Z;
  wifi : list Network.t;
  bt : list Network.t
}.

Definition set_filename (v : string) (self : t) : t :=
  mk (meta self) (networks self) v (n_wifi self) (n_bt self) (wifi self) (bt self).
Definition set_wifi (v : list Network.t) (self : t) : t :=
  mk (meta self) (networks self) (filename self) (n_wifi self) (n_bt self) v (bt self).
Definition set_bt (v : list Network.t) (self : t) : t :=
  mk (meta self) (networks self) (filename self) (n_wifi self) (n_bt self) (wifi self) v.
Definition set_n_wifi (v : Z) (self : t) : t :=
  mk (meta self) (networks self) (filename self) v (n_bt self) (wifi self) (bt self).
Definition set_n_bt (v : Z) (self : t) : t :=
  mk (meta self) (networks self) (filename self) (n_wifi self) v (wifi self) (bt self).

(** [self.meta.filepath] when [self.meta and self.meta.filepath] is truthy.
    A [Meta] object is itself always truthy. *)
Definition meta_filepath (self : t) : option string :=
  match meta self with
  | None => None
  | Some m => if opt_str_truthy (Meta.filepath m) then Meta.filepath m else None
  end.

(** [key=lambda x: (x.rssi), reverse=True] *)
Definition by_rssi_reversed (x y : Network.t) : bool :=
  Network.rssi y <=? Network.rssi x.

Definition model_post_init : method t unit :=
  (* Set filename from meta if not provided *)
  self ← self_get;
  match (if str_truthy (filename self) then None else meta_filepath self) with
  | Some fp =>
      match index_last (str_split "/" fp) with
      | Ok name => self_modify (set_filename name)
      | Raise _ => mret tt
      end
  | None => mret tt
  end;;
  (* Move networks to wifi list if they're in the networks field *)
  self ← self_get;
  (if list_truthy (networks self) && negb (list_truthy (wifi self))
   then self_modify (set_wifi (networks self))
   else mret tt);;
  (* Sort networks by RSSI *)
  self ← self_get;
  self_modify (set_wifi (py_sorted by_rssi_reversed (wifi self)));;
  self ← self_get;
  self_modify (set_bt (py_sorted by_rssi_reversed (bt self)));;
  (* Update counts *)
  self ← self_get;
  self_modify (set_n_wifi (Z.of_nat (length (wifi self))));;
  self ← self_get;
  self_modify (set_n_bt (Z.of_nat (length (bt self)))).

(** The pydantic release the class is loaded with.  The class is written
    for release 1 ([class Config], [allow_population_by_field_name]);
    release 2 loads it too. *)
Inductive pydantic : Type :=
  | Pydantic1
  | Pydantic2.

(** Construction, [Networks(meta=..., networks=..., ...)]: the fields that
    are not supplied take their defaults.  Nothing in the repository calls
    [model_post_init].  Release 1 of pydantic does not know a method of that
    name, so the object is left as the defaults make it.  Release 2 calls the
    method with one argument besides [self], which [def model_post_init(self)]
    does not take: the construction raises [TypeError]. *)
Definition init (release : pydantic) (meta : option Meta.t)
    (networks : list Network.t) (filename : option string)
    (n_wifi n_bt : option Z) (wifi bt : option (list Network.t)) : result t :=
  let self :=
    mk meta networks (default EmptyString filename)
       (default 0 n_wifi) (default 0 n_bt)
       (default [] wifi) (default [] bt) in
  match release with
  | Pydantic1 => Ok self
  | Pydantic2 => Raise TypeError
  end.

(** The list [get_networks] works on; a [device_type] other than
    ['wifi'] and ['bt'] leaves [nets] unbound. *)
Definition select_nets (self : t) (device_type : string) : result (list Network.t) :=
  if String.eqb device_type "wifi" then
    Ok (if list_truthy (wifi self) then wifi self else networks self)
  else if String.eqb device_type "bt" then
    Ok (bt self)
  else Raise UnboundLocalError.

Definition get_networks (min_rssi max_rssi max_networks : option Z)
    (device_type : string) : method t (result (list Network.t)) :=
  self ← self_get;
  mret (
    nets ← select_nets self device_type;
    if negb (list_truthy nets) then Ok []
    else
      let rssis := map Network.rssi nets in
      min_rssi ← if_truthy_else min_rssi (py_min rssis);
      max_rssi ← if_truthy_else max_rssi (py_max rssis);
      max_networks ← if_truthy_else max_networks (Ok (Z.of_nat (length nets)));
      let filtered_nets :=
        List.filter (fun x => (min_rssi <=? Network.rssi x) && (Network.rssi x <=? max_rssi)) nets in
      Ok (py_slice filtered_nets 0 max_networks)).
End Networks.

Module ModelExamples.
Definition net (name : string) (r : Z) : Network.t :=
  Network.mk name 1 r 0 0 (Some EmptyString) None None None None.

Definition meta_abc : Meta.t :=
  Meta.mk None (Some "/a/b/c.json"%string) None None None None None None.

Definition three : list Network.t :=
  [net "aa" (-50); net "bb" (-70); net "cc" (-90)].

(** The object the defaults make from a [meta] and a [networks] list, and
    the same object after a call of [model_post_init]. *)
Definition fresh (meta : option Meta.t) (networks : list Network.t) : Networks.t :=
  Networks.mk meta networks "" 0 0 [] [].

Definition normalised (meta : option Meta.t) (networks : list Network.t) : Networks.t :=
  leaves Networks.model_post_init (fresh meta networks).

Example init_release_1 :
  Networks.init Networks.Pydantic1 (Some meta_abc) three None None None None None
  = Ok (fresh (Some meta_abc) three).
Proof. reflexivity. Qed.

Example init_release_2 :
  Networks.init Networks.Pydantic2 (Some meta_abc) three None None None None None
  = Raise TypeError.
Proof. reflexivity. Qed.

Example post_init_filename :
  Networks.filename (normalised (Some meta_abc) three) = "c.json"%string.
Proof. reflexivity. Qed.

Example post_init_sorts :
  map Network.rssi
    (Networks.wifi (normalised None [net "a" (-90); net "b" (-50); net "c" (-70)]))
  = [-50; -70; -90].
Proof. reflexivity. Qed.

Example get_all :
  returns (Networks.get_networks None None None "wifi") (normalised None three)
  = Ok three.
Proof. reflexivity. Qed.

Example get_bounded :
  returns (Networks.get_networks (Some (-80)) (Some (-60)) (Some 5) "wifi")
    (normalised None three) = Ok [net "bb" (-70)].
Proof. reflexivity. Qed.

Example get_unknown_device :
  returns (Networks.get_networks None None None "lora") (normalised None three)
  = Raise UnboundLocalError.
Proof. reflexivity. Qed.
End ModelExamples.

(** ** Facts about the built-ins *)

Section BuiltinFacts.

Lemma index_last_singleton {A} (x : A) : index_last [x] = Ok x.
Proof. reflexivity. Qed.

Lemma index_last_cons {A} (x y : A) (l : list A) :
  index_last (x :: y :: l) = index_last (y :: l).
Proof.
  unfold index_last. simpl rev.
  destruct (rev l) as [|z r]; reflexivity.
Qed.

(** The last piece of [s.split(sep)]: either [s] holds no separator and the
    last piece is [s] itself, or [s] is [pre ++ sep ++ name] and [name], the
    last piece, holds no separator. *)
Lemma str_split_last (sep : ascii) (s : string) :
  exists name : string,
    index_last (str_split sep s) = Ok name /\
    ~ In sep (list_ascii_of_string name) /\
    ((str_split sep s = [s] /\ name = s) \/
     (exists pre w ws, s = (pre ++ String sep name)%string /\
                       str_split sep s = w :: ws /\ ws <> [])).
Proof.
  induction s as [|c s IH].
  - exists EmptyString. simpl. split; [reflexivity|]. split; [tauto|]. left. tauto.
  - destruct IH as (name & Hlast & Hno & Hshape). simpl str_split.
    destruct (Ascii.eqb c sep) eqn:Ec.
    + apply Ascii.eqb_eq in Ec. subst c. exists name.
      destruct (str_split sep s) as [|w ws] eqn:Es.
      { discriminate Hlast. }
      rewrite index_last_cons. split; [exact Hlast|]. split; [exact Hno|].
      right. destruct Hshape as [[Hone Hname] | (pre & w' & ws' & Hs & _ & _)].
      * exists EmptyString, EmptyString, (w :: ws). subst name. simpl.
        split; [reflexivity|]. split; [reflexivity | discriminate].
      * exists (String sep pre), EmptyString, (w :: ws). subst s. simpl.
        split; [reflexivity|]. split; [reflexivity | discriminate].
    + apply Ascii.eqb_neq in Ec.
      destruct Hshape as [[Hone Hname] | (pre & w & ws & Hs & Hsplit & Hws)].
      * rewrite Hone. subst name. exists (String c s).
        split; [reflexivity|]. split.
        { simpl. intros [Heq | Hin]; [congruence | contradiction]. }
        left. tauto.
      * rewrite Hsplit. exists name.
        destruct ws as [|w2 ws]; [contradiction|].
        rewrite index_last_cons. rewrite Hsplit, index_last_cons in Hlast.
        split; [exact Hlast|]. split; [exact Hno|].
        right. exists (String c pre), (String c w), (w2 :: ws). subst s. simpl.
        split; [reflexivity|]. split; [reflexivity | discriminate].
Qed.

Lemma insert_sorted_length {A} (before : A -> A -> bool) x l :
  length (insert_sorted before x l) = S (length l).
Proof.
  induction l as [|y l IH]; simpl; [reflexivity|].
  destruct (before x y); simpl; congruence.
Qed.

Lemma py_sorted_length {A} (before : A -> A -> bool) l :
  length (py_sorted before l) = length l.
Proof.
  induction l as [|x l IH]; simpl; [reflexivity|].
  rewrite insert_sorted_length. congruence.
Qed.

Lemma py_sorted_nil_inv {A} (before : A -> A -> bool) l :
  py_sorted before l = [] -> l = [].
Proof.
  intros H. apply (f_equal (@length A)) in H. rewrite py_sorted_length in H.
  destruct l; [reflexivity | discriminate].
Qed.

Lemma py_slice_whole {A} (l : list A) (n : Z) :
  Z.of_nat (length l) <= n -> py_slice l 0 n = l.
Proof.
  intros Hn. unfold py_slice, slice_index.
  destruct (Z.ltb_spec n 0) as [Hneg | _]; [lia|].
  destruct (Z.ltb_spec 0 0) as [Hneg | _]; [lia|].
  rewrite Z.min_r, Z.min_l by lia.
  rewrite Z.sub_0_r, Nat2Z.id. simpl. apply firstn_all.
Qed.

Lemma py_slice_all {A} (l : list A) : py_slice l 0 (Z.of_nat (length l)) = l.
Proof. apply py_slice_whole. lia. Qed.

Lemma fold_min_le (l : list Z) (a : Z) :
  fold_left Z.min l a <= a /\ forall x, In x l -> fold_left Z.min l a <= x.
Proof.
  revert a. induction l as [|y l IH]; intros a; simpl.
  - split; [lia | tauto].
  - destruct (IH (Z.min a y)) as [H1 H2]. split; [lia|].
    intros x [-> | Hin]; [lia | auto].
Qed.

Lemma fold_max_ge (l : list Z) (a : Z) :
  a <= fold_left Z.max l a /\ forall x, In x l -> x <= fold_left Z.max l a.
Proof.
  revert a. induction l as [|y l IH]; intros a; simpl.
  - split; [lia | tauto].
  - destruct (IH (Z.max a y)) as [H1 H2]. split; [lia|].
    intros x [-> | Hin]; [lia | auto].
Qed.

(** [min(l)] and [max(l)] of a non-empty list bound every element. *)
Lemma py_min_max_bounds (l : list Z) :
  l <> [] ->
  exists lo hi, py_min l = Ok lo /\ py_max l = Ok hi /\
                forall x, In x l -> lo <= x <= hi.
Proof.
  destruct l as [|a l]; [congruence|]. intros _.
  exists (fold_left Z.min l a), (fold_left Z.max l a).
  split; [reflexivity|]. split; [reflexivity|].
  destruct (fold_min_le l a) as [Hm1 Hm2], (fold_max_ge l a) as [HM1 HM2].
  intros x [<- | Hin]; split; auto.
Qed.

Lemma filter_all {A} (f : A -> bool) (l : list A) :
  (forall x, In x l -> f x = true) -> List.filter f l = l.
Proof.
  induction l as [|x l IH]; intros H; simpl; [reflexivity|].
  rewrite (H x) by (left; reflexivity). f_equal. apply IH.
  intros y Hy. apply H. right. exact Hy.
Qed.

End BuiltinFacts.

(** ** Theorems about the model layer *)

Module ModelFacts.
Import Networks.

(** What [get_networks] does with the selected list [nets]. *)
Definition query (nets : list Network.t) (min_rssi max_rssi max_networks : option Z)
    : result (list Network.t) :=
  if negb (list_truthy nets) then Ok []
  else
    let rssis := map Network.rssi nets in
    lo ← if_truthy_else min_rssi (py_min rssis);
    hi ← if_truthy_else max_rssi (py_max rssis);
    n ← if_truthy_else max_networks (Ok (Z.of_nat (length nets)));
    Ok (py_slice
          (List.filter (fun x => (lo <=? Network.rssi x) && (Network.rssi x <=? hi)) nets)
          0 n).

Lemma get_networks_query self min_rssi max_rssi max_networks device_type :
  returns (get_networks min_rssi max_rssi max_networks device_type) self
  = (nets ← select_nets self device_type; query nets min_rssi max_rssi max_networks).
Proof. reflexivity. Qed.

(** [get_networks] is a query: it leaves the container as it was. *)
Lemma get_networks_read_only self min_rssi max_rssi max_networks device_type :
  leaves (get_networks min_rssi max_rssi max_networks device_type) self = self.
Proof. reflexivity. Qed.

Lemma select_nets_wifi self :
  select_nets self "wifi" = Ok (if list_truthy (wifi self) then wifi self else networks self).
Proof. reflexivity. Qed.

Lemma select_nets_bt self : select_nets self "bt" = Ok (bt self).
Proof. reflexivity. Qed.

Lemma query_nil a b c : query [] a b c = Ok [].
Proof. reflexivity. Qed.

Lemma rssi_in_map (nets : list Network.t) x :
  In x nets -> In (Network.rssi x) (map Network.rssi nets).
Proof. apply in_map. Qed.

Lemma query_no_bounds nets : query nets None None None = Ok nets.
Proof.
  destruct nets as [|n nets]; [reflexivity|].
  unfold query. simpl negb. cbv zeta.
  destruct (py_min_max_bounds (map Network.rssi (n :: nets))) as (lo & hi & Hlo & Hhi & Hb);
    [discriminate|].
  unfold if_truthy_else. rewrite Hlo, Hhi. unfold mbind, result_bind.
  rewrite filter_all.
  - f_equal. apply (py_slice_all (n :: nets)).
  - intros x Hx. apply rssi_in_map, Hb in Hx.
    apply andb_true_iff. split; apply Z.leb_le; lia.
Qed.

(** The filter with the bounds in use and no cap on the count. *)
Lemma query_zero_count nets a b lo hi :
  nets <> [] ->
  if_truthy_else a (py_min (map Network.rssi nets)) = Ok lo ->
  if_truthy_else b (py_max (map Network.rssi nets)) = Ok hi ->
  query nets a b (Some 0)
  = Ok (List.filter (fun x => (lo <=? Network.rssi x) && (Network.rssi x <=? hi)) nets).
Proof.
  intros Hne Ha Hb. destruct nets as [|n nets]; [congruence|].
  unfold query. simpl negb. cbv zeta. rewrite Ha, Hb.
  unfold mbind, result_bind, if_truthy_else. simpl opt_int_truthy. cbv iota.
  f_equal.
  apply py_slice_whole.
  pose proof (filter_length_le
                (fun x => (lo <=? Network.rssi x) && (Network.rssi x <=? hi)) (n :: nets)).
  lia.
Qed.

(** C9. [channel_as_2pt4] returns the channel clamped into [0, 11] and
    leaves the record as it was. *)
Theorem channel_as_2pt4_clamps_view (self : Network.t) :
  0 <= returns Network.channel_as_2pt4 self <= 11 /\
  (0 <= Network.channel self <= 11 ->
   returns Network.channel_as_2pt4 self = Network.channel self) /\
  (Network.channel self < 0 -> returns Network.channel_as_2pt4 self = 0) /\
  (11 < Network.channel self -> returns Network.channel_as_2pt4 self = 11) /\
  leaves Network.channel_as_2pt4 self = self.
Proof.
  unfold returns, leaves, Network.channel_as_2pt4. simpl.
  repeat split; intros; lia.
Qed.

Example channel_as_2pt4_clamps_view_witness :
  returns Network.channel_as_2pt4 (Network.mk "aa" 36 (-60) 0 0 None None None None None) = 11
  /\ Network.channel
       (leaves Network.channel_as_2pt4 (Network.mk "aa" 36 (-60) 0 0 None None None None None))
     = 36.
Proof.
  pose proof (channel_as_2pt4_clamps_view
                (Network.mk "aa" 36 (-60) 0 0 None None None None None))
    as (_ & _ & _ & Habove & Hframe).
  split; [apply Habove; reflexivity | rewrite Hframe; reflexivity].
Defined.

(** C7. With no bound and no count supplied, [get_networks] returns the
    whole selected list in its order. *)
Theorem get_networks_no_bounds (self : Networks.t) :
  (wifi self <> [] ->
   returns (get_networks None None None "wifi") self = Ok (wifi self)) /\
  (bt self <> [] ->
   returns (get_networks None None None "bt") self = Ok (bt self)) /\
  (forall device_type nets,
      select_nets self device_type = Ok nets ->
      returns (get_networks None None None device_type) self = Ok nets).
Proof.
  split; [|split].
  - intros Hne. rewrite get_networks_query, select_nets_wifi.
    destruct (wifi self) eqn:E; [congruence|].
    simpl list_truthy. cbv iota. apply query_no_bounds.
  - intros Hne. rewrite get_networks_query, select_nets_bt. apply query_no_bounds.
  - intros device_type nets Hsel. rewrite get_networks_query, Hsel.
    apply query_no_bounds.
Qed.

(** The example of the specification: RSSI values -50, -70, -90. *)
Example get_networks_no_bounds_witness :
  returns (get_networks None None None "wifi")
    (Networks.mk None [] "" 3 0 ModelExamples.three [])
  = Ok ModelExamples.three.
Proof.
  destruct (get_networks_no_bounds (Networks.mk None [] "" 3 0 ModelExamples.three []))
    as (Hwifi & _ & _).
  apply Hwifi. discriminate.
Defined.

(** C10. An argument that is [0] counts as not supplied: the call is the
    same as without it; with [max_networks = 0] and a non-empty selected list
    the whole filtered list is returned. *)
Theorem get_networks_zero_is_default (self : Networks.t)
    (min_rssi max_rssi max_networks : option Z) (device_type : string) :
  get_networks (Some 0) max_rssi max_networks device_type self
    = get_networks None max_rssi max_networks device_type self /\
  get_networks min_rssi (Some 0) max_networks device_type self
    = get_networks min_rssi None max_networks device_type self /\
  get_networks min_rssi max_rssi (Some 0) device_type self
    = get_networks min_rssi max_rssi None device_type self /\
  (forall nets lo hi,
      select_nets self device_type = Ok nets -> nets <> [] ->
      if_truthy_else min_rssi (py_min (map Network.rssi nets)) = Ok lo ->
      if_truthy_else max_rssi (py_max (map Network.rssi nets)) = Ok hi ->
      returns (get_networks min_rssi max_rssi (Some 0) device_type) self
      = Ok (List.filter (fun x => (lo <=? Network.rssi x) && (Network.rssi x <=? hi)) nets)) /\
  (forall nets,
      select_nets self device_type = Ok nets ->
      returns (get_networks (Some 0) None (Some 0) device_type) self = Ok nets).
Proof.
  split; [reflexivity|]. split; [reflexivity|]. split; [reflexivity|]. split.
  - intros nets lo hi Hsel Hne Hlo Hhi.
    rewrite get_networks_query, Hsel. apply (query_zero_count nets _ _ _ _ Hne Hlo Hhi).
  - intros nets Hsel. rewrite get_networks_query, Hsel. apply query_no_bounds.
Qed.

Example get_networks_zero_is_default_witness :
  returns (get_networks (Some 0) None (Some 0) "wifi")
    (Networks.mk None [] "" 3 0 ModelExamples.three [])
  = Ok ModelExamples.three.
Proof.
  apply (get_networks_zero_is_default
           (Networks.mk None [] "" 3 0 ModelExamples.three []) None None None "wifi").
  reflexivity.
Defined.

(** [model_post_init] step by step, as a function of the object. *)
Definition with_filename (self : Networks.t) : Networks.t :=
  match (if str_truthy (filename self) then None else meta_filepath self) with
  | Some fp =>
      match index_last (str_split "/" fp) with
      | Ok name => set_filename name self
      | Raise _ => self
      end
  | None => self
  end.

Definition with_adopted (self : Networks.t) : Networks.t :=
  if list_truthy (networks self) && negb (list_truthy (wifi self))
  then set_wifi (networks self) self else self.

Lemma model_post_init_steps (self : Networks.t) :
  leaves model_post_init self =
  let s := with_adopted (with_filename self) in
  let s := set_wifi (py_sorted by_rssi_reversed (wifi s)) s in
  let s := set_bt (py_sorted by_rssi_reversed (bt s)) s in
  let s := set_n_wifi (Z.of_nat (length (wifi s))) s in
  set_n_bt (Z.of_nat (length (bt s))) s.
Proof.
  unfold leaves, model_post_init, with_adopted, with_filename.
  unfold mbind, method_bind, self_get, self_modify, mret, method_ret.
  destruct (if str_truthy (filename self) then None else meta_filepath self) as [fp|];
    [destruct (index_last (str_split "/" fp))|];
    match goal with
    | |- context [list_truthy (networks ?s) && negb (list_truthy (wifi ?s))] =>
        destruct (list_truthy (networks s) && negb (list_truthy (wifi s)))
    end; reflexivity.
Qed.

Lemma model_post_init_filename (self : Networks.t) :
  filename (leaves model_post_init self) = filename (with_filename self).
Proof.
  rewrite model_post_init_steps. cbv zeta. simpl.
  unfold with_adopted. destruct (_ && _); reflexivity.
Qed.

Lemma model_post_init_wifi (self : Networks.t) :
  wifi (leaves model_post_init self)
  = py_sorted by_rssi_reversed
      (if list_truthy (networks self) && negb (list_truthy (wifi self))
       then networks self else wifi self).
Proof.
  rewrite model_post_init_steps. cbv zeta. simpl.
  assert (Hn : networks (with_filename self) = networks self /\
               wifi (with_filename self) = wifi self).
  { unfold with_filename.
    destruct (if str_truthy (filename self) then None else meta_filepath self) as [fp|];
      [destruct (index_last (str_split "/" fp))|]; split; reflexivity. }
  destruct Hn as [Hn Hw]. unfold with_adopted. rewrite Hn, Hw.
  destruct (_ && _); simpl; rewrite ?Hw; reflexivity.
Qed.

Lemma model_post_init_networks (self : Networks.t) :
  networks (leaves model_post_init self) = networks self.
Proof.
  rewrite model_post_init_steps. cbv zeta. simpl.
  unfold with_adopted, with_filename.
  destruct (if str_truthy (filename self) then None else meta_filepath self) as [fp|];
    [destruct (index_last (str_split "/" fp))|];
    match goal with
    | |- context [list_truthy (networks ?s) && negb (list_truthy (wifi ?s))] =>
        destruct (list_truthy (networks s) && negb (list_truthy (wifi s)))
    end; reflexivity.
Qed.

(** X20. What [model_post_init] does about the file name when it is
    called: on an object with no file name and a non-empty [meta.filepath]
    the file name becomes the last piece of [meta.filepath] between ['/']: it
    holds no ['/'], and the path is either that name or ends in ['/']
    followed by it.  For ["/a/b/c.json"] it is ["c.json"]. *)
Theorem model_post_init_filename_from_filepath (self : Networks.t) (m : Meta.t)
    (fp : string) :
  filename self = EmptyString -> meta self = Some m ->
  Meta.filepath m = Some fp -> fp <> EmptyString ->
  index_last (str_split "/" fp) = Ok (filename (leaves model_post_init self)) /\
  ~ In "/"%char (list_ascii_of_string (filename (leaves model_post_init self))) /\
  (fp = filename (leaves model_post_init self) \/
   exists pre : string,
     fp = (pre ++ "/" ++ filename (leaves model_post_init self))%string) /\
  (fp = "/a/b/c.json"%string ->
   filename (leaves model_post_init self) = "c.json"%string).
Proof.
  intros Hf Hm Hfp Hne.
  assert (Hname : index_last (str_split "/" fp)
                  = Ok (filename (leaves model_post_init self))).
  { rewrite model_post_init_filename. unfold with_filename, meta_filepath.
    rewrite Hf, Hm, Hfp. simpl str_truthy. cbv iota.
    destruct fp as [|c fp]; [congruence|]. simpl opt_str_truthy. cbv iota.
    destruct (str_split_last "/" (String c fp)) as (name & Hlast & _).
    rewrite Hlast. reflexivity. }
  destruct (str_split_last "/" fp) as (name & Hlast & Hno & Hshape).
  rewrite Hlast in Hname. injection Hname as Hname. rewrite <- Hname.
  split; [exact Hlast|]. split; [exact Hno|]. split.
  - destruct Hshape as [[_ ->] | (pre & _ & _ & Hs & _)].
    + left. reflexivity.
    + right. exists pre. exact Hs.
  - intros ->. vm_compute in Hlast. congruence.
Qed.

Example model_post_init_filename_from_filepath_witness :
  filename (leaves model_post_init
              (ModelExamples.fresh (Some ModelExamples.meta_abc) ModelExamples.three))
  = "c.json"%string.
Proof.
  apply (model_post_init_filename_from_filepath
           (ModelExamples.fresh (Some ModelExamples.meta_abc) ModelExamples.three)
           ModelExamples.meta_abc "/a/b/c.json").
  - reflexivity.
  - reflexivity.
  - reflexivity.
  - discriminate.
  - reflexivity.
Defined.

(** C4. The construction does not derive the file name: the method that
    derives it is never run by the construction.  With no file name supplied,
    under release 1 of pydantic the constructed object has the empty file
    name whatever [meta.filepath] is, and under release 2 the construction
    raises [TypeError]; for the path ["/a/b/c.json"] no construction yields
    the file name ["c.json"]. *)
Theorem init_does_not_derive_filename (m : Meta.t) (nets : list Network.t)
    (n_wifi n_bt : option Z) (wifi bt : option (list Network.t)) :
  (exists self,
      init Pydantic1 (Some m) nets None n_wifi n_bt wifi bt = Ok self /\
      filename self = EmptyString /\
      Networks.wifi self = default [] wifi /\
      Networks.n_wifi self = default 0 n_wifi) /\
  init Pydantic2 (Some m) nets None n_wifi n_bt wifi bt = Raise TypeError /\
  (forall release self,
      init release (Some ModelExamples.meta_abc) nets None n_wifi n_bt wifi bt = Ok self ->
      filename self <> "c.json"%string).
Proof.
  split; [|split].
  - eexists. split; [reflexivity|]. repeat split.
  - reflexivity.
  - intros [|] self H; [|discriminate H].
    injection H as <-. discriminate.
Qed.

(** A container whose [wifi] list is empty while [networks] is not: the
    state of a constructed object, on which [model_post_init] has not been
    called. *)
Definition unadopted : Networks.t :=
  Networks.mk None [ModelExamples.net "aa" (-50)] "" 0 0 [] [].

Example unadopted_is_constructed :
  init Pydantic1 None [ModelExamples.net "aa" (-50)] None None None None None
  = Ok unadopted.
Proof. reflexivity. Qed.

(** C5, as it was stated, fails: with an empty [wifi] list the query for
    ['wifi'] falls back to [networks] and returns its records. *)
Lemma get_networks_empty_wifi_falls_back :
  wifi unadopted = [] /\
  returns (get_networks None None None "wifi") unadopted
  = Ok [ModelExamples.net "aa" (-50)].
Proof. split; reflexivity. Qed.

(** C5, amended. [get_networks] returns the empty list when the list it
    works on is empty: the [bt] list for ['bt']; for ['wifi'] the [wifi]
    list and also the [networks] list it falls back to.  On an object on
    which [model_post_init] has been called an empty [wifi] list is enough. *)
Theorem get_networks_empty_selection (self : Networks.t)
    (min_rssi max_rssi max_networks : option Z) :
  (bt self = [] ->
   returns (get_networks min_rssi max_rssi max_networks "bt") self = Ok []) /\
  (wifi self = [] -> networks self = [] ->
   returns (get_networks min_rssi max_rssi max_networks "wifi") self = Ok []) /\
  (wifi (leaves model_post_init self) = [] ->
   returns (get_networks min_rssi max_rssi max_networks "wifi")
     (leaves model_post_init self) = Ok []).
Proof.
  split; [|split].
  - intros Hbt. rewrite get_networks_query, select_nets_bt, Hbt. reflexivity.
  - intros Hw Hn. rewrite get_networks_query, select_nets_wifi, Hw, Hn. reflexivity.
  - intros Hw. rewrite get_networks_query, select_nets_wifi, Hw.
    rewrite model_post_init_wifi in Hw. apply py_sorted_nil_inv in Hw.
    rewrite model_post_init_networks. simpl list_truthy. cbv iota.
    destruct (networks self) as [|n ns]; [reflexivity|].
    destruct (wifi self) as [|w ws]; simpl in Hw; discriminate Hw.
Qed.

Example get_networks_empty_selection_witness :
  returns (get_networks None None None "bt")
    (Networks.mk None ModelExamples.three "" 0 0 [] []) = Ok [] /\
  returns (get_networks (Some (-80)) None None "wifi")
    (leaves model_post_init
       (Networks.mk None [] "" 0 0 [] [ModelExamples.net "dd" (-40)])) = Ok [].
Proof.
  split.
  - destruct (get_networks_empty_selection
                (Networks.mk None ModelExamples.three "" 0 0 [] []) None None None)
      as (Hbt & _ & _).
    apply Hbt. reflexivity.
  - destruct (get_networks_empty_selection
                (Networks.mk None [] "" 0 0 [] [ModelExamples.net "dd" (-40)])
                (Some (-80)) None None)
      as (_ & _ & Hcalled).
    apply Hcalled. reflexivity.
Defined.

End ModelFacts.

(** ** The converter: [wigle_to_skylift.py] *)

(** [int(s)] for a string of ASCII characters: white space around, an
    optional sign, decimal digits, single underscores between digits.
    Anything else raises [ValueError]. *)
Definition digit_of (c : ascii) : option Z :=
  let n := Z.of_N (N_of_ascii c) in
  if (48 <=? n) && (n <=? 57) then Some (n - 48) else None.

Fixpoint int_digits (s : string) (acc : Z) (after_digit : bool) : option Z :=
  match s with
  | EmptyString => if after_digit then Some acc else None
  | String c s' =>
      match digit_of c with
      | Some d => int_digits s' (10 * acc + d) true
      | None =>
          if Ascii.eqb c "_" && after_digit then int_digits s' acc false else None
      end
  end.

Fixpoint lstrip (s : string) : string :=
  match s with
  | EmptyString => EmptyString
  | String c s' => if Ascii.is_space c then lstrip s' else s
  end.

Definition strip (s : string) : string :=
  String.rev (lstrip (String.rev (lstrip s))).

Definition py_int (s : string) : result Z :=
  let body :=
    match strip s with
    | String "-" s' => option_map Z.opp (int_digits s' 0 false)
    | String "+" s' => int_digits s' 0 false
    | s' => int_digits s' 0 false
    end in
  match body with
  | Some n => Ok n
  | None => Raise ValueError
  end.

Example py_int_ex1 : py_int "20" = Ok 20.
Proof. reflexivity. Qed.
Example py_int_ex2 : py_int " -1_000 " = Ok (-1000).
Proof. reflexivity. Qed.
Example py_int_ex3 : py_int "abc" = Raise ValueError.
Proof. reflexivity. Qed.
Example py_int_ex4 : py_int "2.5" = Raise ValueError.
Proof. reflexivity. Qed.
Example py_int_ex5 : py_int "" = Raise ValueError.
Proof. reflexivity. Qed.

(** [l[i]] for [i >= 0]. *)
Definition list_index {A} (l : list A) (i : nat) : result A :=
  match nth_error l i with
  | Some x => Ok x
  | None => Raise IndexError
  end.

Module Wigle.

(** An entry of [data["results"]]: the keys [main] reads. *)
Module Raw.
Record t : Type := mk {
  netid : string;
  channel : Z;
  trilat : Q;
  trilong : Q;
  qos : Z;
  ssid : string
}.
End Raw.

(** The dictionary [sl_network]. *)
Module SlNetwork.
Record t : Type := mk {
  bssid : string;
  channel : Z;
  distance_x : Q;
  distance_xy : Q;
  distance_y : Q;
  lat : Q;
  lon : Q;
  qos : Z;
  rssi : Z;
  ssid : string
}.
End SlNetwork.

(** The dictionary [sl_meta]. *)
Module SlMeta.
Record t : Type := mk {
  comment : string;
  filepath : string;
  lat : Q;
  lon : Q;
  radius : Z;
  run : Z;
  since : Z;
  type : string
}.
End SlMeta.

(** The dictionary [sl_data], the content of one output file. *)
Module SlData.
Record t : Type := mk {
  meta : SlMeta.t;
  networks : list SlNetwork.t
}.
End SlData.

(** The files of [out_dir], by path. *)
Abbreviation files := (gmap string SlData.t).

(** What the run was called with. *)
Record args : Type := mk_args {
  fn_in : string;
  out_dir : string;
  target_lat : Q;
  target_long : Q;
  nets_per_of : Z
}.

(** [nets_per_of = 20], then [try: nets_per_of = int(sys.argv[5])] with
    [except IndexError: pass]. *)
Definition nets_per_of_arg (argv : list string) : result Z :=
  let nets_per_of := 20 in
  match (s ← list_index argv 5; py_int s) with
  | Ok n => Ok n
  | Raise IndexError => Ok nets_per_of
  | Raise e => Raise e
  end.

Section Run.

(** [geopy.distance.geodesic(p1, p2).m]; [float(s)]; [os.sep]. *)
Variable geodesic : point -> point -> Q.
Variable py_float : string -> result Q.
Variable os_sep : string.

Definition parse_args (argv : list string) : result args :=
  if (length argv <? 5)%nat || (6 <? length argv)%nat then Raise (SystemExit 1)
  else
    fn_in ← list_index argv 1;
    out_dir ← list_index argv 2;
    target_lat ← (s ← list_index argv 3; py_float s);
    target_long ← (s ← list_index argv 4; py_float s);
    nets_per_of ← nets_per_of_arg argv;
    mret (mk_args fn_in out_dir target_lat target_long nets_per_of).

(** The meta block; [today] is [int(datetime.date.today().strftime("%Y%m%d"))]. *)
Definition make_meta (target_lat target_long : Q) (today : Z) : SlMeta.t :=
  SlMeta.mk "" "" target_lat target_long 1 1 today "wigle".

(** The body of the conversion loop. *)
Definition convert (target_lat target_long : Q) (network : Raw.t) : SlNetwork.t :=
  let net_lat := Raw.trilat network in
  let net_long := Raw.trilong network in
  let p_network := (net_lat, net_long) in
  let p_target := (target_lat, target_long) in
  SlNetwork.mk
    (Raw.netid network)
    (Raw.channel network)
    (GeoMath.get_geo_distance geodesic p_target (target_lat, net_long))
    (GeoMath.get_geo_distance geodesic p_target p_network)
    (GeoMath.get_geo_distance geodesic p_target (net_lat, target_long))
    net_lat
    net_long
    (Raw.qos network)
    (GeoMath.calc_geo_rssi geodesic p_network p_target)
    (Raw.ssid network).

(** [key=lambda sl_network: abs(sl_network["distance_xy"])] *)
Definition sort_key (sl_network : SlNetwork.t) : Q :=
  Qabs (SlNetwork.distance_xy sl_network).

Definition by_distance (x y : SlNetwork.t) : bool :=
  float_le (sort_key x) (sort_key y).

Section Chunks.
Variable out_dir : string.
Variable sl_meta : SlMeta.t.
Variable sl_networks : list SlNetwork.t.
Variable nets_per_of : Z.

Definition path_of (i : Z) : string :=
  ((out_dir ++ os_sep) ++ ("skylift_" ++ pretty (i + 1) ++ ".json"))%string.

(** The [while c < n_nets] loop; [fuel] bounds the number of tests of
    its condition, [None] is a loop still running when it is used up. *)
Fixpoint write_loop (fuel : nat) (i c : Z) (fs : files) : option files :=
  let n_nets := Z.of_nat (length sl_networks) in
  match fuel with
  | O => None
  | S fuel =>
      if c <? n_nets then
        if n_nets - c =? 0 then Some fs
        else
          let nets_to_do :=
            if n_nets - c <? nets_per_of then n_nets - c else nets_per_of in
          let sl_data :=
            SlData.mk sl_meta (py_slice sl_networks c (c + nets_to_do)) in
          let fn_out := path_of i in
          write_loop fuel (i + 1) (c + nets_to_do) (<[fn_out := sl_data]> fs)
      else Some fs
  end.
End Chunks.

(** [main] from the point where the input has been read: the converted
    and sorted networks, then the files written into the emptied
    [out_dir]. *)
Definition sorted_networks (a : args) (data : list Raw.t) : list SlNetwork.t :=
  py_sorted by_distance (map (convert (target_lat a) (target_long a)) data).

(** Whether geopy takes a tuple as a point.  [geodesic] makes a point of
    each of its two arguments before it measures, and raises [ValueError]
    for one it refuses (a latitude outside [-90, 90]). *)
Variable point_ok : point -> bool.

(** The points handed to [geodesic] while one record is converted, in the
    order of the calls. *)
Definition points_of (target_lat target_long : Q) (network : Raw.t) : list point :=
  let net_lat := Raw.trilat network in
  let net_long := Raw.trilong network in
  let p_network := (net_lat, net_long) in
  let p_target := (target_lat, target_long) in
  [p_target; (target_lat, net_long);
   p_target; p_network;
   p_target; (net_lat, target_long);
   p_network; p_target].

(** The body of the conversion loop with the error of geopy. *)
Definition convert_checked (target_lat target_long : Q) (network : Raw.t)
    : result SlNetwork.t :=
  if forallb point_ok (points_of target_lat target_long network)
  then Ok (convert target_lat target_long network)
  else Raise ValueError.

(** The loop [for network in data["results"]]: it stops at the first
    record that raises. *)
Fixpoint convert_all (target_lat target_long : Q) (data : list Raw.t)
    : result (list SlNetwork.t) :=
  match data with
  | [] => Ok []
  | network :: rest =>
      sl_network ← convert_checked target_lat target_long network;
      sl_networks ← convert_all target_lat target_long rest;
      Ok (sl_network :: sl_networks)
  end.

(** [data] is the list [data["results"]] of an input file that was read,
    each entry with the keys [main] reads; the files are those of [out_dir],
    which is emptied only after the conversion loop. *)
Definition main (fuel : nat) (argv : list string) (data : list Raw.t) (today : Z)
    : result (option files) :=
  a ← parse_args argv;
  let sl_meta := make_meta (target_lat a) (target_long a) today in
  sl_networks ← convert_all (target_lat a) (target_long a) data;
  let sl_networks := py_sorted by_distance sl_networks in
  mret (write_loop (out_dir a) sl_meta sl_networks (nets_per_of a) fuel 0 0 ∅).

End Run.
End Wigle.

(** ** Facts about sorting and slicing *)

Section SortFacts.
Context {A : Type} (before : A -> A -> bool).

Lemma insert_sorted_perm (x : A) (l : list A) :
  Permutation (insert_sorted before x l) (x :: l).
Proof.
  induction l as [|y l IH]; simpl; [reflexivity|].
  destruct (before x y); [reflexivity|].
  rewrite IH. apply perm_swap.
Qed.

Lemma py_sorted_perm (l : list A) : Permutation (py_sorted before l) l.
Proof.
  induction l as [|x l IH]; simpl; [reflexivity|].
  rewrite insert_sorted_perm. apply perm_skip, IH.
Qed.

Hypothesis before_total : forall x y, before x y = true \/ before y x = true.

Lemma insert_sorted_HdRel (a x : A) (l : list A) :
  before a x = true -> HdRel (fun u v => before u v = true) a l ->
  HdRel (fun u v => before u v = true) a (insert_sorted before x l).
Proof.
  intros Hax Hal. destruct l as [|y l]; simpl.
  - constructor. exact Hax.
  - destruct (before x y); constructor; [exact Hax|].
    inversion Hal; subst. assumption.
Qed.

Lemma insert_sorted_Sorted (x : A) (l : list A) :
  Sorted (fun u v => before u v = true) l ->
  Sorted (fun u v => before u v = true) (insert_sorted before x l).
Proof.
  induction 1 as [|y l Hs IH Hhd]; simpl.
  - repeat constructor.
  - destruct (before x y) eqn:E.
    + constructor; [constructor; assumption|]. constructor. exact E.
    + constructor; [exact IH|].
      apply insert_sorted_HdRel; [|exact Hhd].
      destruct (before_total x y) as [H | H]; [congruence | exact H].
Qed.

Lemma py_sorted_Sorted (l : list A) :
  Sorted (fun u v => before u v = true) (py_sorted before l).
Proof.
  induction l as [|x l IH]; simpl; [constructor|].
  apply insert_sorted_Sorted, IH.
Qed.
End SortFacts.

Section SliceFacts.
Context {A : Type}.

(** A slice with indices inside the list is a [take] of a [drop]. *)
Lemma py_slice_take_drop (l : list A) (c k : Z) :
  0 <= c -> 0 <= k -> c + k <= Z.of_nat (length l) ->
  py_slice l c (c + k) = take (Z.to_nat k) (drop (Z.to_nat c) l).
Proof.
  intros Hc Hk Hlen. unfold py_slice, slice_index.
  destruct (Z.ltb_spec c 0) as [Hneg | _]; [lia|].
  destruct (Z.ltb_spec (c + k) 0) as [Hneg | _]; [lia|].
  rewrite !Z.min_l by lia. f_equal. lia.
Qed.

(** Chunk [j] of size [k]. *)
Definition chunk (k : nat) (l : list A) (j : nat) : list A :=
  take k (drop (j * k) l).

Lemma chunk_succ (k : nat) (l : list A) (j : nat) :
  chunk k l (S j) = chunk k (drop k l) j.
Proof. unfold chunk. rewrite drop_drop. f_equal. Qed.

(** The chunks of a list, one after the other, are the list. *)
Lemma concat_chunks (k n : nat) (l : list A) :
  (length l <= n * k)%nat ->
  concat (map (chunk k l) (seq 0 n)) = l.
Proof.
  revert l. induction n as [|n IH]; intros l Hlen.
  - destruct l; [reflexivity | simpl in Hlen; lia].
  - rewrite <- cons_seq, <- seq_shift, map_cons, map_map. simpl concat.
    rewrite (map_ext _ (chunk k (drop k l))) by apply chunk_succ.
    rewrite IH.
    + unfold chunk. simpl. apply take_drop.
    + rewrite length_drop. lia.
Qed.

Lemma chunk_length (k : nat) (l : list A) (j : nat) :
  length (chunk k l j) = Nat.min k (length l - j * k).
Proof. unfold chunk. rewrite length_take, length_drop. reflexivity. Qed.
End SliceFacts.

(** ** Facts about the converter *)

(** [ceil(n / k)] for a positive [k]. *)
Definition ceil_div (n k : Z) : Z := (n + k - 1) / k.

Module WigleFacts.
Import Wigle.

Lemma ceil_div_0 k : 0 < k -> ceil_div 0 k = 0.
Proof. intros Hk. unfold ceil_div. apply Z.div_small. lia. Qed.

Lemma ceil_div_small n k : 0 < n <= k -> ceil_div n k = 1.
Proof.
  intros Hn. unfold ceil_div. symmetry.
  apply (Z.div_unique_pos _ _ 1 (n - 1)); lia.
Qed.

Lemma ceil_div_add n k : 0 < k -> ceil_div (n + k) k = 1 + ceil_div n k.
Proof.
  intros Hk. unfold ceil_div.
  replace (n + k + k - 1) with (n + k - 1 + 1 * k) by lia.
  rewrite Z.div_add by lia. lia.
Qed.

(** [ceil_div n k] is the least number of chunks of size [k] that hold [n]
    elements. *)
Lemma ceil_div_bounds n k :
  0 < k -> k * (ceil_div n k - 1) < n <= k * ceil_div n k.
Proof.
  intros Hk. unfold ceil_div.
  pose proof (Z.div_mod (n + k - 1) k ltac:(lia)) as Hdm.
  pose proof (Z.mod_pos_bound (n + k - 1) k Hk) as Hmod. lia.
Qed.

Lemma ceil_div_nonneg n k : 0 < k -> 0 <= n -> 0 <= ceil_div n k.
Proof. intros Hk Hn. pose proof (ceil_div_bounds n k Hk). nia. Qed.

Lemma string_app_length (s t : string) :
  String.length (s ++ t) = (String.length s + String.length t)%nat.
Proof. induction s as [|a s IH]; simpl; [reflexivity | now rewrite IH]. Qed.

Lemma string_app_inj_r (s1 s2 t : string) : (s1 ++ t)%string = (s2 ++ t)%string -> s1 = s2.
Proof.
  revert s2. induction s1 as [|a s1 IH]; intros [|b s2] H.
  - reflexivity.
  - apply (f_equal String.length) in H.
    rewrite !string_app_length in H. simpl in H. lia.
  - apply (f_equal String.length) in H.
    rewrite !string_app_length in H. simpl in H. lia.
  - change (String a (s1 ++ t) = String b (s2 ++ t))%string in H.
    injection H as -> H. f_equal. apply IH, H.
Qed.

Section ChunkFacts.
Variables (os_sep out_dir : string) (sl_meta : SlMeta.t).
Variables (sl_networks : list SlNetwork.t) (nets_per_of : Z).
Hypothesis nets_per_of_pos : 0 < nets_per_of.

Local Abbreviation n_nets := (Z.of_nat (length sl_networks)).
Local Abbreviation path := (path_of os_sep out_dir).
Local Abbreviation loop := (write_loop os_sep out_dir sl_meta sl_networks nets_per_of).

(** The loop counter determines the path of the file. *)
Lemma path_of_inj (i j : Z) : path i = path j -> i = j.
Proof.
  unfold path_of. intros H.
  apply (inj (String.app _)) in H. apply (inj (String.app _)) in H.
  apply string_app_inj_r in H. apply (inj pretty) in H. lia.
Qed.

Lemma write_loop_S (fuel : nat) (i c : Z) (fs : files) :
  loop (S fuel) i c fs =
  if c <? n_nets then
    if n_nets - c =? 0 then Some fs
    else
      let nets_to_do := if n_nets - c <? nets_per_of then n_nets - c else nets_per_of in
      loop fuel (i + 1) (c + nets_to_do)
        (<[path i := SlData.mk sl_meta (py_slice sl_networks c (c + nets_to_do))]> fs)
  else Some fs.
Proof. reflexivity. Qed.

(** The file written [j] rounds after the round that starts at offset [c]. *)
Definition file_at (c j : Z) : SlData.t :=
  SlData.mk sl_meta
    (take (Z.to_nat nets_per_of) (drop (Z.to_nat (c + j * nets_per_of)) sl_networks)).

(** The loop from the state [(i, c, fs)]: it ends, and writes
    [ceil_div (n_nets - c) nets_per_of] new files, the chunks of the networks
    from offset [c] on, and nothing else. *)
Lemma write_loop_spec (fuel : nat) : forall (i c : Z) (fs : files),
  0 <= c <= n_nets ->
  (Z.to_nat (n_nets - c) < fuel)%nat ->
  (forall j, i <= j -> fs !! path j = None) ->
  exists fs' : files,
    loop fuel i c fs = Some fs' /\
    size fs' = (size fs + Z.to_nat (ceil_div (n_nets - c) nets_per_of))%nat /\
    (forall name,
        (forall j, 0 <= j < ceil_div (n_nets - c) nets_per_of -> name <> path (i + j)) ->
        fs' !! name = fs !! name) /\
    (forall j, 0 <= j < ceil_div (n_nets - c) nets_per_of ->
               fs' !! path (i + j) = Some (file_at c j)) /\
    (forall name d, fs' !! name = Some d ->
        fs !! name = Some d \/
        exists j, 0 <= j < ceil_div (n_nets - c) nets_per_of /\
                  name = path (i + j) /\ d = file_at c j).
Proof.
  induction fuel as [|fuel IH]; intros i c fs Hc Hfuel Hfresh; [lia|].
  rewrite write_loop_S.
  destruct (Z.ltb_spec c n_nets) as [Hlt | Hge].
  2: { replace (n_nets - c) with 0 by lia. rewrite ceil_div_0 by lia.
       exists fs. split; [reflexivity|]. split; [simpl; lia|].
       split; [reflexivity|]. split; [intros; lia|]. intros; left; assumption. }
  destruct (Z.eqb_spec (n_nets - c) 0) as [Hz | _]; [lia|].
  cbv zeta.
  set (nets_to_do := if n_nets - c <? nets_per_of then n_nets - c else nets_per_of).
  assert (Hntd : 0 < nets_to_do <= n_nets - c /\
                 ((nets_to_do = nets_per_of /\ nets_per_of <= n_nets - c) \/
                  (c + nets_to_do = n_nets /\ n_nets - c < nets_per_of))).
  { unfold nets_to_do. destruct (Z.ltb_spec (n_nets - c) nets_per_of); lia. }
  clearbody nets_to_do.
  assert (Hceil : ceil_div (n_nets - c) nets_per_of
                  = 1 + ceil_div (n_nets - (c + nets_to_do)) nets_per_of).
  { destruct Hntd as (_ & [[-> _] | [Heq Hsmall]]).
    - replace (n_nets - c) with (n_nets - (c + nets_per_of) + nets_per_of) by lia.
      apply ceil_div_add, nets_per_of_pos.
    - rewrite Heq, Z.sub_diag, ceil_div_0, ceil_div_small by lia. reflexivity. }
  assert (Hrest : 0 <= ceil_div (n_nets - (c + nets_to_do)) nets_per_of)
    by (apply ceil_div_nonneg; lia).
  assert (Hlast : c + nets_to_do = n_nets ->
                  ceil_div (n_nets - (c + nets_to_do)) nets_per_of = 0).
  { intros ->. rewrite Z.sub_diag. apply ceil_div_0, nets_per_of_pos. }
  assert (Hslice : SlData.mk sl_meta (py_slice sl_networks c (c + nets_to_do))
                   = file_at c 0).
  { unfold file_at. f_equal. rewrite py_slice_take_drop by lia.
    replace (c + 0 * nets_per_of) with c by lia.
    destruct Hntd as (_ & [[-> _] | [Heq Hsmall]]); [reflexivity|].
    rewrite !take_ge; [reflexivity | |]; rewrite length_drop; lia. }
  rewrite Hslice.
  destruct (IH (i + 1) (c + nets_to_do) (<[path i := file_at c 0]> fs))
    as (fs' & Hrun & Hsize & Hframe & Hlook & Hinv).
  { lia. }
  { lia. }
  { intros j Hj. rewrite lookup_insert_ne; [apply Hfresh; lia|].
    intros Heq%path_of_inj. lia. }
  assert (Hshift : forall j, 0 <= j < ceil_div (n_nets - (c + nets_to_do)) nets_per_of ->
                             file_at (c + nets_to_do) j = file_at c (j + 1)).
  { intros j Hj. unfold file_at. do 3 f_equal.
    destruct Hntd as (_ & [[-> _] | [Heq _]]); [lia|]. specialize (Hlast Heq). lia. }
  exists fs'. split; [exact Hrun|]. split; [|split; [|split]].
  - rewrite Hsize, map_size_insert_None by (apply Hfresh; lia).
    rewrite Hceil. lia.
  - intros name Hname. rewrite Hframe.
    + apply lookup_insert_ne. intros Heq. apply (Hname 0); [lia|].
      rewrite Z.add_0_r. congruence.
    + intros j Hj. replace (i + 1 + j) with (i + (j + 1)) by lia.
      apply Hname. lia.
  - intros j Hj. destruct (decide (j = 0)) as [-> | Hnz].
    + rewrite Z.add_0_r, Hframe; [apply lookup_insert_eq|].
      intros j Hj' Heq%path_of_inj. lia.
    + replace (i + j) with (i + 1 + (j - 1)) by lia.
      rewrite Hlook, Hshift by lia. do 2 f_equal. lia.
  - intros name d Hd. destruct (Hinv _ _ Hd) as [Hd1 | (j & Hj & -> & ->)].
    + destruct (decide (name = path i)) as [-> | Hne].
      * rewrite lookup_insert_eq in Hd1. injection Hd1 as <-.
        right. exists 0. split; [lia|]. rewrite Z.add_0_r. split; reflexivity.
      * rewrite lookup_insert_ne in Hd1 by congruence. left. exact Hd1.
    + right. exists (j + 1). split; [lia|]. split; [f_equal; lia|].
      apply Hshift, Hj.
Qed.

End ChunkFacts.

(** Reading the output back: the [networks] array of the file the loop
    wrote in round [j], which is [skylift_<j+1>.json], and the arrays of all
    files one after the other in the order of their numbers. *)
Definition networks_of_file (os_sep out_dir : string) (fs : files) (j : nat)
    : list SlNetwork.t :=
  match fs !! path_of os_sep out_dir (Z.of_nat j) with
  | Some d => SlData.networks d
  | None => []
  end.

Definition concat_files (os_sep out_dir : string) (fs : files) : list SlNetwork.t :=
  concat (map (networks_of_file os_sep out_dir fs) (seq 0 (size fs))).

Example path_of_first : path_of "/" "out" 0 = "out/skylift_1.json"%string.
Proof. reflexivity. Qed.

Lemma by_distance_total (x y : SlNetwork.t) :
  by_distance x y = true \/ by_distance y x = true.
Proof.
  unfold by_distance, float_le. rewrite !Qle_bool_iff.
  destruct (Qlt_le_dec (sort_key y) (sort_key x)) as [H | H];
    [right; apply Qlt_le_weak, H | left; exact H].
Qed.

Lemma Sorted_by_distance (l : list SlNetwork.t) :
  Sorted (fun x y => by_distance x y = true) l ->
  StronglySorted (fun x y => (sort_key x <= sort_key y)%Q) l.
Proof.
  intros Hs. apply Sorted_StronglySorted.
  - intros x y z Hxy Hyz. eapply Qle_trans; eassumption.
  - induction Hs as [|x l Hs IH Hhd]; constructor; [exact IH|].
    destruct Hhd as [|y l Hxy]; constructor.
    apply Qle_bool_iff, Hxy.
Qed.

(** The networks [main] hands to the loop are the converted records in
    ascending order of [abs(distance_xy)]. *)
Lemma sorted_networks_sorted geodesic (a : args) (data : list Raw.t) :
  StronglySorted (fun x y => (sort_key x <= sort_key y)%Q) (sorted_networks geodesic a data) /\
  Permutation (sorted_networks geodesic a data)
    (map (convert geodesic (target_lat a) (target_long a)) data).
Proof.
  unfold sorted_networks. split.
  - apply Sorted_by_distance, py_sorted_Sorted, by_distance_total.
  - apply py_sorted_perm.
Qed.

(** The loop of [main], run on the emptied directory. *)
Lemma write_loop_from_empty (os_sep out_dir : string) (sl_meta : SlMeta.t)
    (sl_networks : list SlNetwork.t) (nets_per_of : Z) (fuel : nat) :
  0 < nets_per_of -> (length sl_networks < fuel)%nat ->
  exists fs : files,
    write_loop os_sep out_dir sl_meta sl_networks nets_per_of fuel 0 0 ∅ = Some fs /\
    size fs = Z.to_nat (ceil_div (Z.of_nat (length sl_networks)) nets_per_of) /\
    (forall j : nat,
        (j < size fs)%nat ->
        fs !! path_of os_sep out_dir (Z.of_nat j)
        = Some (SlData.mk sl_meta (chunk (Z.to_nat nets_per_of) sl_networks j))) /\
    (forall name d,
        fs !! name = Some d ->
        exists j : nat,
          (j < size fs)%nat /\ name = path_of os_sep out_dir (Z.of_nat j) /\
          d = SlData.mk sl_meta (chunk (Z.to_nat nets_per_of) sl_networks j)).
Proof.
  intros Hk Hfuel.
  destruct (write_loop_spec os_sep out_dir sl_meta sl_networks nets_per_of Hk fuel 0 0 ∅)
    as (fs & Hrun & Hsize & _ & Hlook & Hinv).
  { lia. }
  { lia. }
  { intros j _. apply lookup_empty. }
  rewrite Z.sub_0_r in *. rewrite map_size_empty in Hsize. simpl in Hsize.
  assert (Hfile : forall j : nat,
             file_at sl_meta sl_networks nets_per_of 0 (Z.of_nat j)
             = SlData.mk sl_meta (chunk (Z.to_nat nets_per_of) sl_networks j)).
  { intros j. unfold file_at, chunk. do 3 f_equal.
    rewrite Z.add_0_l, Z2Nat.inj_mul, Nat2Z.id by lia. reflexivity. }
  exists fs. split; [exact Hrun|]. split; [exact Hsize|]. split.
  - intros j Hj. rewrite <- Hfile. apply (Hlook (Z.of_nat j)). lia.
  - intros name d Hd. destruct (Hinv name d Hd) as [Hd0 | (j & Hj & -> & ->)].
    + rewrite lookup_empty in Hd0. discriminate.
    + exists (Z.to_nat j). rewrite <- Hfile, Z2Nat.id by lia.
      split; [lia|]. split; reflexivity.
Qed.

(** C3. For [N] networks and a positive chunk size [K] the loop ends and
    writes [ceil(N / K)] files; each but the last holds [K] networks, the last
    holds [N - K * (files - 1)], which is positive when [N > 0]; no file holds
    an empty list, and for [N = 0] no file is written. *)
Theorem chunk_count_and_sizes (os_sep out_dir : string) (sl_meta : SlMeta.t)
    (sl_networks : list SlNetwork.t) (nets_per_of : Z) (fuel : nat) :
  0 < nets_per_of -> (length sl_networks < fuel)%nat ->
  exists (fs : files) (n : Z),
    write_loop os_sep out_dir sl_meta sl_networks nets_per_of fuel 0 0 ∅ = Some fs /\
    Z.of_nat (size fs) = n /\
    n = ceil_div (Z.of_nat (length sl_networks)) nets_per_of /\
    nets_per_of * (n - 1) < Z.of_nat (length sl_networks) <= nets_per_of * n /\
    (forall j, 0 <= j < n ->
       exists d, fs !! path_of os_sep out_dir j = Some d /\
                 Z.of_nat (length (SlData.networks d))
                 = if j <? n - 1 then nets_per_of
                   else Z.of_nat (length sl_networks) - nets_per_of * (n - 1)) /\
    (0 < Z.of_nat (length sl_networks) ->
     0 < Z.of_nat (length sl_networks) - nets_per_of * (n - 1)) /\
    (forall name d, fs !! name = Some d ->
       SlData.networks d <> [] /\
       exists j, 0 <= j < n /\ name = path_of os_sep out_dir j) /\
    (sl_networks = [] -> fs = ∅).
Proof.
  intros Hk Hfuel.
  destruct (write_loop_from_empty os_sep out_dir sl_meta sl_networks nets_per_of fuel Hk Hfuel)
    as (fs & Hrun & Hsize & Hlook & Hinv).
  pose proof (ceil_div_bounds (Z.of_nat (length sl_networks)) nets_per_of Hk) as Hb.
  pose proof (ceil_div_nonneg (Z.of_nat (length sl_networks)) nets_per_of Hk ltac:(lia)) as Hnn.
  set (n := ceil_div (Z.of_nat (length sl_networks)) nets_per_of) in *.
  assert (Hlen : forall j : nat, (j < size fs)%nat ->
             Z.of_nat (length (chunk (Z.to_nat nets_per_of) sl_networks j))
             = if Z.of_nat j <? n - 1 then nets_per_of
               else Z.of_nat (length sl_networks) - nets_per_of * (n - 1)).
  { intros j Hj. rewrite chunk_length.
    destruct (Z.ltb_spec (Z.of_nat j) (n - 1)) as [Hlt | Hge].
    - assert (nets_per_of * (Z.of_nat j + 1) <= nets_per_of * (n - 1)) by nia. nia.
    - assert (Z.of_nat j = n - 1) as Hj' by lia. nia. }
  exists fs, n. split; [exact Hrun|]. split; [lia|]. split; [reflexivity|].
  split; [exact Hb|]. split; [|split; [|split]].
  - intros j Hj. exists (SlData.mk sl_meta (chunk (Z.to_nat nets_per_of) sl_networks (Z.to_nat j))).
    split.
    + rewrite <- (Z2Nat.id j) at 1 by lia. apply Hlook. lia.
    + simpl. rewrite Hlen by lia. rewrite Z2Nat.id by lia. reflexivity.
  - lia.
  - intros name d Hd. destruct (Hinv name d Hd) as (j & Hj & -> & ->). split.
    + simpl. intros Hnil. apply (f_equal (@length _)) in Hnil.
      pose proof (Hlen j Hj) as Hl. rewrite Hnil in Hl. simpl in Hl.
      destruct (Z.of_nat j <? n - 1); lia.
    + exists (Z.of_nat j). split; [lia | reflexivity].
  - intros ->. apply map_size_empty_iff. rewrite Hsize.
    unfold n. simpl length. rewrite ceil_div_0 by exact Hk. reflexivity.
Qed.

Module Sample.
(** Forty-five records on a meridian, one degree apart. *)
Definition raw (k : nat) : Raw.t :=
  Raw.mk "00:11:22:33:44:55" 6 (Z.of_nat k # 1) 0 0 "net".
Definition data45 : list Raw.t := map raw (seq 0 45).
Definition target : args := mk_args "in.json" "out" 3 0 20.
Definition meta : SlMeta.t := make_meta 3 0 20220101.
Definition networks45 : list SlNetwork.t := sorted_networks GeoMath.taxicab target data45.

(** The example of the specification: 45 records, chunk size 20. *)
Example three_files :
  option_map
    (fun fs => map (fun j => length (networks_of_file "/" "out" fs j)) (seq 0 (size fs)))
    (write_loop "/" "out" meta networks45 20 46 0 0 ∅)
  = Some [20; 20; 5]%nat.
Proof. vm_compute. reflexivity. Qed.
End Sample.

Example chunk_count_and_sizes_witness :
  exists (fs : files) (n : Z),
    write_loop "/" "out" Sample.meta Sample.networks45 20 46 0 0 ∅ = Some fs /\
    Z.of_nat (size fs) = n /\ n = 3.
Proof.
  destruct (chunk_count_and_sizes "/" "out" Sample.meta Sample.networks45 20 46)
    as (fs & n & Hrun & Hsize & Hn & _).
  - lia.
  - vm_compute. lia.
  - exists fs, n. split; [exact Hrun|]. split; [exact Hsize|].
    rewrite Hn. reflexivity.
Defined.

(** The arrays of the files read back one after the other. *)
Lemma concat_files_chunks (os_sep out_dir : string) (sl_meta : SlMeta.t)
    (sl_networks : list SlNetwork.t) (nets_per_of : Z) (fs : files) :
  0 < nets_per_of ->
  size fs = Z.to_nat (ceil_div (Z.of_nat (length sl_networks)) nets_per_of) ->
  (forall j : nat,
      (j < size fs)%nat ->
      fs !! path_of os_sep out_dir (Z.of_nat j)
      = Some (SlData.mk sl_meta (chunk (Z.to_nat nets_per_of) sl_networks j))) ->
  concat_files os_sep out_dir fs = sl_networks.
Proof.
  intros Hk Hsize Hlook. unfold concat_files.
  rewrite (map_ext_in _ (chunk (Z.to_nat nets_per_of) sl_networks)).
  - apply concat_chunks. rewrite Hsize.
    pose proof (ceil_div_bounds (Z.of_nat (length sl_networks)) nets_per_of Hk) as Hb.
    pose proof (ceil_div_nonneg (Z.of_nat (length sl_networks)) nets_per_of Hk ltac:(lia)).
    nia.
  - intros j Hj%in_seq. unfold networks_of_file. rewrite Hlook by lia. reflexivity.
Qed.

(** C2. The [networks] arrays of the files, read in the order of the file
    numbers, give back the list the loop was run on, whatever the meta block;
    every file carries that meta block; and the list [main] runs the loop on
    is the list of converted records in ascending order of
    [abs(distance_xy)]. *)
Theorem chunks_concat_is_sorted_input (os_sep out_dir : string) (sl_meta : SlMeta.t)
    (sl_networks : list SlNetwork.t) (nets_per_of : Z) (fuel : nat) :
  0 < nets_per_of -> (length sl_networks < fuel)%nat ->
  exists fs : files,
    write_loop os_sep out_dir sl_meta sl_networks nets_per_of fuel 0 0 ∅ = Some fs /\
    concat_files os_sep out_dir fs = sl_networks /\
    (forall name d, fs !! name = Some d -> SlData.meta d = sl_meta) /\
    (forall geodesic (a : args) (data : list Raw.t),
        sl_networks = sorted_networks geodesic a data ->
        StronglySorted
          (fun x y => (Qabs (SlNetwork.distance_xy x) <= Qabs (SlNetwork.distance_xy y))%Q)
          sl_networks /\
        Permutation sl_networks (map (convert geodesic (target_lat a) (target_long a)) data)).
Proof.
  intros Hk Hfuel.
  destruct (write_loop_from_empty os_sep out_dir sl_meta sl_networks nets_per_of fuel Hk Hfuel)
    as (fs & Hrun & Hsize & Hlook & Hinv).
  exists fs. split; [exact Hrun|]. split; [|split].
  - eapply concat_files_chunks; eassumption.
  - intros name d Hd. destruct (Hinv name d Hd) as (j & _ & _ & ->). reflexivity.
  - intros geodesic a data ->. apply sorted_networks_sorted.
Qed.

Example chunks_concat_is_sorted_input_witness :
  exists fs : files,
    write_loop "/" "out" Sample.meta Sample.networks45 20 46 0 0 ∅ = Some fs /\
    concat_files "/" "out" fs = Sample.networks45.
Proof.
  destruct (chunks_concat_is_sorted_input "/" "out" Sample.meta Sample.networks45 20 46)
    as (fs & Hrun & Hcat & _).
  - lia.
  - vm_compute. lia.
  - exists fs. split; [exact Hrun | exact Hcat].
Defined.

(** Why the chunk size has to be positive: with [nets_per_of = 0] and a
    network left to write, the loop never ends. *)
Lemma write_loop_zero_runs_on (os_sep out_dir : string) (sl_meta : SlMeta.t)
    (sl_networks : list SlNetwork.t) (fuel : nat) : forall (i c : Z) (fs : files),
  0 <= c < Z.of_nat (length sl_networks) ->
  write_loop os_sep out_dir sl_meta sl_networks 0 fuel i c fs = None.
Proof.
  induction fuel as [|fuel IH]; intros i c fs Hc; [reflexivity|].
  rewrite write_loop_S.
  destruct (Z.ltb_spec c (Z.of_nat (length sl_networks))) as [_ | Hge]; [|lia].
  destruct (Z.eqb_spec (Z.of_nat (length sl_networks) - c) 0) as [Hz | _]; [lia|].
  destruct (Z.ltb_spec (Z.of_nat (length sl_networks) - c) 0) as [Hneg | _]; [lia|].
  cbv zeta. rewrite Z.add_0_r. apply IH, Hc.
Qed.

(** *** The optional argument [NETWORKS_PER_OUTFILE] *)

Definition argv_unparsable : list string :=
  ["wigle_to_skylift.py"; "wigle.json"; "out"; "52.5"; "13.4"; "abc"]%string.

(** C6, as it was stated, fails: an argument that is not an integer is not
    replaced by 20; [int] raises [ValueError], which [except IndexError] does
    not catch. *)
Lemma nets_per_of_unparsable_raises :
  nth_error argv_unparsable 5 = Some "abc"%string /\
  py_int "abc" = Raise ValueError /\
  nets_per_of_arg argv_unparsable = Raise ValueError.
Proof. repeat split. Qed.

Lemma nets_per_of_arg_omitted (argv : list string) :
  length argv = 5%nat -> nets_per_of_arg argv = Ok 20.
Proof.
  intros Hlen. unfold nets_per_of_arg, list_index.
  destruct (nth_error argv 5) as [s|] eqn:E; [|reflexivity].
  assert (nth_error argv 5 <> None) as Hsome by congruence.
  apply nth_error_Some in Hsome. lia.
Qed.

Lemma nets_per_of_arg_supplied (argv : list string) (s : string) :
  nth_error argv 5 = Some s ->
  nets_per_of_arg argv = py_int s.
Proof.
  intros E. unfold nets_per_of_arg, list_index. rewrite E.
  unfold mbind, result_bind, py_int.
  destruct (match strip s with
            | String "-" s' => option_map Z.opp (int_digits s' 0 false)
            | String "+" s' => int_digits s' 0 false
            | s' => int_digits s' 0 false
            end); reflexivity.
Qed.

(** C6, amended. With the argument omitted the chunk size is 20 and
    nothing fails; a supplied argument that [int] accepts is the chunk size;
    a supplied argument that [int] refuses ends the run with [ValueError]. *)
Theorem nets_per_of_default_or_parsed (py_float : string -> result Q)
    (prog fn_in out_dir s_lat s_long : string) (lat long : Q) :
  py_float s_lat = Ok lat -> py_float s_long = Ok long ->
  (nets_per_of_arg [prog; fn_in; out_dir; s_lat; s_long] = Ok 20 /\
   parse_args py_float [prog; fn_in; out_dir; s_lat; s_long]
   = Ok (mk_args fn_in out_dir lat long 20)) /\
  (forall (s : string) (n : Z),
      py_int s = Ok n ->
      parse_args py_float [prog; fn_in; out_dir; s_lat; s_long; s]
      = Ok (mk_args fn_in out_dir lat long n)) /\
  (forall s : string,
      py_int s = Raise ValueError ->
      nets_per_of_arg [prog; fn_in; out_dir; s_lat; s_long; s] = Raise ValueError /\
      parse_args py_float [prog; fn_in; out_dir; s_lat; s_long; s] = Raise ValueError).
Proof.
  intros Hlat Hlong. split; [|split].
  - split; [apply nets_per_of_arg_omitted; reflexivity|].
    unfold parse_args. simpl. rewrite Hlat. simpl. rewrite Hlong. reflexivity.
  - intros s n Hs. unfold parse_args. simpl. rewrite Hlat. simpl. rewrite Hlong. simpl.
    rewrite (nets_per_of_arg_supplied _ s) by reflexivity. rewrite Hs. reflexivity.
  - intros s Hs.
    assert (Harg : nets_per_of_arg [prog; fn_in; out_dir; s_lat; s_long; s] = Raise ValueError).
    { rewrite (nets_per_of_arg_supplied _ s) by reflexivity. exact Hs. }
    split; [exact Harg|].
    unfold parse_args. simpl. rewrite Hlat. simpl. rewrite Hlong. simpl.
    rewrite Harg. reflexivity.
Qed.

(** A stand-in for [float] that reads integer literals, for running
    [parse_args] on concrete arguments. *)
Definition float_of_int_literal (s : string) : result Q :=
  n ← py_int s; mret (inject_Z n).

Example nets_per_of_default_or_parsed_witness :
  parse_args float_of_int_literal ["wigle_to_skylift.py"; "wigle.json"; "out"; "52"; "13"]
  = Ok (mk_args "wigle.json" "out" 52 13 20) /\
  parse_args float_of_int_literal ["wigle_to_skylift.py"; "wigle.json"; "out"; "52"; "13"; "8"]
  = Ok (mk_args "wigle.json" "out" 52 13 8) /\
  parse_args float_of_int_literal ["wigle_to_skylift.py"; "wigle.json"; "out"; "52"; "13"; "abc"]
  = Raise ValueError.
Proof.
  destruct (nets_per_of_default_or_parsed float_of_int_literal
              "wigle_to_skylift.py" "wigle.json" "out" "52" "13" 52 13
              eq_refl eq_refl) as ((_ & Hdefault) & Hparsed & Hrefused).
  split; [exact Hdefault|]. split.
  - apply Hparsed. reflexivity.
  - apply Hrefused. reflexivity.
Defined.

End WigleFacts.

(** * Further properties of the model layer *)

Module ModelMore.
Import Networks.

Example bssid_as_hex_list_ino_ex :
  returns Network.bssid_as_hex_list_ino
    (Network.mk "de:ad:be:ef:00:01" 6 (-60) 0 0 None None None None None)
  = "{0xde, 0xad, 0xbe, 0xef, 0x00, 0x01}"%string.
Proof. reflexivity. Qed.

(** The text [bssid_as_hex_list_ino] puts between the braces, written
    without [split] and [join]: every [':'] becomes [", 0x"]. *)
Fixpoint colons_to_hex (s : string) : string :=
  match s with
  | EmptyString => EmptyString
  | String c s' =>
      if Ascii.eqb c ":" then (", 0x" ++ colons_to_hex s')%string
      else String c (colons_to_hex s')
  end.

(** What [join] appends after the first piece. *)
Definition join_rest (sep : string) (l : list string) : string :=
  match l with
  | [] => EmptyString
  | _ :: _ => (sep ++ str_join sep l)%string
  end.

Lemma str_join_cons (sep x : string) (l : list string) :
  str_join sep (x :: l) = (x ++ join_rest sep l)%string.
Proof.
  destruct l as [|y l]; simpl.
  - induction x as [|a x IH]; [reflexivity|].
    change (String a x = String a (x ++ ""))%string. f_equal. exact IH.
  - reflexivity.
Qed.

Lemma str_split_cons_inv (sep : ascii) (s : string) :
  exists w ws, str_split sep s = w :: ws.
Proof.
  destruct s as [|c s]; simpl; [eauto|].
  destruct (Ascii.eqb c sep); [eauto|].
  destruct (str_split sep s); eauto.
Qed.

Lemma hex_join_split (s : string) :
  str_join ", " (map (fun x => ("0x" ++ x)%string) (str_split ":" s))
  = ("0x" ++ colons_to_hex s)%string.
Proof.
  induction s as [|c s IH]; [reflexivity|].
  simpl str_split. simpl colons_to_hex.
  destruct (Ascii.eqb c ":").
  - destruct (str_split_cons_inv ":" s) as (w & ws & Hs).
    rewrite Hs in *. rewrite map_cons, str_join_cons.
    change (join_rest ", " (map _ (w :: ws)))
      with (", " ++ str_join ", " (map (fun x => ("0x" ++ x)%string) (w :: ws)))%string.
    rewrite IH. reflexivity.
  - destruct (str_split_cons_inv ":" s) as (w & ws & Hs).
    rewrite Hs in *. rewrite map_cons, str_join_cons in *.
    change (String "0" (String "x" (w ++ join_rest ", " (map (fun x => ("0x" ++ x)%string) ws)))
            = String "0" (String "x" (colons_to_hex s)))%string in IH.
    injection IH as IH.
    change (String "0" (String "x" (String c
              (w ++ join_rest ", " (map (fun x => ("0x" ++ x)%string) ws))))
            = String "0" (String "x" (String c (colons_to_hex s))))%string.
    rewrite IH. reflexivity.
Qed.

(** X1. [bssid_as_hex_list_ino] returns the BSSID between braces with
    ["0x"] in front and every [':'] replaced by [", 0x"], and leaves the
    record as it was. *)
Theorem bssid_as_hex_list_ino_text (self : Network.t) :
  returns Network.bssid_as_hex_list_ino self
  = ("{0x" ++ colons_to_hex (Network.bssid self) ++ "}")%string /\
  leaves Network.bssid_as_hex_list_ino self = self.
Proof.
  split; [|reflexivity].
  unfold returns, Network.bssid_as_hex_list_ino. simpl fst.
  rewrite hex_join_split. reflexivity.
Qed.

Section SortMore.
Context {A : Type} (before : A -> A -> bool).

(** Sorting a list that is in order changes nothing. *)
Lemma py_sorted_id (l : list A) :
  Sorted (fun u v => before u v = true) l -> py_sorted before l = l.
Proof.
  induction 1 as [|x l Hs IH Hhd]; simpl; [reflexivity|].
  rewrite IH. destruct Hhd as [|y l Hxy]; simpl; [reflexivity|].
  rewrite Hxy. reflexivity.
Qed.

Lemma insert_sorted_filter (P : A -> bool) (x : A) (l : list A) :
  (forall y, In y l -> P x = true -> P y = true -> before x y = true) ->
  List.filter P (insert_sorted before x l) = List.filter P (x :: l).
Proof.
  induction l as [|y l IH]; intros Hb; [reflexivity|].
  simpl insert_sorted. destruct (before x y) eqn:E; [reflexivity|].
  assert (IH' : List.filter P (insert_sorted before x l) = List.filter P (x :: l)).
  { apply IH. intros z Hz. apply Hb. right. exact Hz. }
  simpl in *. rewrite IH'.
  destruct (P x) eqn:Px, (P y) eqn:Py; try reflexivity.
  rewrite (Hb y) in E by auto. discriminate.
Qed.

(** The sort is stable: the elements picked out by [P], when any two of
    them may stand in either order, keep the order they had. *)
Lemma py_sorted_stable (P : A -> bool) (l : list A) :
  (forall x y, P x = true -> P y = true -> before x y = true) ->
  List.filter P (py_sorted before l) = List.filter P l.
Proof.
  intros Hb. induction l as [|x l IH]; [reflexivity|].
  simpl py_sorted. rewrite insert_sorted_filter by (intros; apply Hb; assumption).
  simpl. rewrite IH. reflexivity.
Qed.
End SortMore.

(** Descending order of RSSI. *)
Definition rssi_desc (x y : Network.t) : Prop := Network.rssi y <= Network.rssi x.

Lemma by_rssi_reversed_sorted (l : list Network.t) :
  Sorted (fun x y => by_rssi_reversed x y = true) (py_sorted by_rssi_reversed l).
Proof.
  apply py_sorted_Sorted. intros x y. unfold by_rssi_reversed.
  rewrite !Z.leb_le. lia.
Qed.

Lemma py_sorted_rssi_desc (l : list Network.t) :
  StronglySorted rssi_desc (py_sorted by_rssi_reversed l).
Proof.
  apply Sorted_StronglySorted.
  - intros x y z. unfold rssi_desc. lia.
  - pose proof (by_rssi_reversed_sorted l) as Hs.
    induction Hs as [|x l' Hs IH Hhd]; constructor; [exact IH|].
    destruct Hhd as [|y l' Hxy]; constructor.
    apply Z.leb_le, Hxy.
Qed.

(** The list that becomes the [wifi] list: [networks] when it is not empty
    and no [wifi] list was given, the [wifi] list otherwise. *)
Definition wifi_source (self : Networks.t) : list Network.t :=
  if list_truthy (networks self) && negb (list_truthy (wifi self))
  then networks self else wifi self.

(** The object [model_post_init] leaves, field by field. *)
Lemma model_post_init_value (self : Networks.t) :
  leaves model_post_init self =
  Networks.mk (meta self) (networks self)
    (filename (ModelFacts.with_filename self))
    (Z.of_nat (length (py_sorted by_rssi_reversed (wifi_source self))))
    (Z.of_nat (length (py_sorted by_rssi_reversed (bt self))))
    (py_sorted by_rssi_reversed (wifi_source self))
    (py_sorted by_rssi_reversed (bt self)).
Proof.
  rewrite ModelFacts.model_post_init_steps. cbv zeta.
  unfold wifi_source, ModelFacts.with_adopted, ModelFacts.with_filename.
  destruct (if str_truthy (filename self) then None else meta_filepath self) as [fp|];
    [destruct (index_last (str_split "/" fp))|];
    match goal with
    | |- context [list_truthy (networks ?s) && negb (list_truthy (wifi ?s))] =>
        simpl (networks s); simpl (wifi s);
        destruct (list_truthy (networks self) && negb (list_truthy (wifi self)))
    end; reflexivity.
Qed.

(** X2. After [model_post_init] both lists are in descending order of
    RSSI, the counts are the lengths of the lists, and [meta] and [networks]
    are as they were. *)
Theorem model_post_init_invariant (self : Networks.t) :
  StronglySorted rssi_desc (wifi (leaves model_post_init self)) /\
  StronglySorted rssi_desc (bt (leaves model_post_init self)) /\
  n_wifi (leaves model_post_init self)
    = Z.of_nat (length (wifi (leaves model_post_init self))) /\
  n_bt (leaves model_post_init self)
    = Z.of_nat (length (bt (leaves model_post_init self))) /\
  meta (leaves model_post_init self) = meta self /\
  networks (leaves model_post_init self) = networks self.
Proof.
  rewrite model_post_init_value. simpl.
  repeat split; apply py_sorted_rssi_desc.
Qed.

(** X3. Which records end up in the lists: the [wifi] list holds the
    records of [networks] when no [wifi] list was given, and the records of
    the given [wifi] list otherwise ([networks] is then not looked at); the
    [bt] list holds the records it held; none is lost or doubled. *)
Theorem model_post_init_adopts (self : Networks.t) :
  (wifi self = [] ->
   Permutation (wifi (leaves model_post_init self)) (networks self)) /\
  (wifi self <> [] ->
   Permutation (wifi (leaves model_post_init self)) (wifi self)) /\
  Permutation (bt (leaves model_post_init self)) (bt self).
Proof.
  rewrite model_post_init_value. simpl. unfold wifi_source.
  split; [|split].
  - intros Hw. rewrite Hw. rewrite py_sorted_perm.
    destruct (networks self); reflexivity.
  - intros Hw. rewrite py_sorted_perm.
    destruct (wifi self); [congruence|].
    destruct (networks self); reflexivity.
  - apply py_sorted_perm.
Qed.

Example model_post_init_adopts_witness :
  Permutation
    (wifi (leaves model_post_init (Networks.mk None ModelExamples.three "" 0 0 [] [])))
    ModelExamples.three.
Proof.
  destruct (model_post_init_adopts (Networks.mk None ModelExamples.three "" 0 0 [] []))
    as (Hadopt & _ & _).
  apply Hadopt. reflexivity.
Defined.

(** A string with a separator in it splits into two pieces or more, and
    the last piece lies after the last separator. *)
Lemma str_split_app_pieces (sep : ascii) (pre t : string) :
  exists w1 w2 ws, str_split sep (pre ++ String sep t) = w1 :: w2 :: ws.
Proof.
  induction pre as [|c pre IH].
  - change (EmptyString ++ String sep t)%string with (String sep t).
    simpl. rewrite Ascii.eqb_refl.
    destruct (str_split_cons_inv sep t) as (w & ws & ->). eauto.
  - change (String c pre ++ String sep t)%string with (String c (pre ++ String sep t)).
    simpl. destruct IH as (w1 & w2 & ws & ->).
    destruct (Ascii.eqb c sep); eauto.
Qed.

Lemma index_last_split_app (sep : ascii) (pre t : string) :
  index_last (str_split sep (pre ++ String sep t)) = index_last (str_split sep t).
Proof.
  induction pre as [|c pre IH].
  - change (EmptyString ++ String sep t)%string with (String sep t).
    simpl. rewrite Ascii.eqb_refl.
    destruct (str_split_cons_inv sep t) as (w & ws & ->).
    apply index_last_cons.
  - change (String c pre ++ String sep t)%string with (String c (pre ++ String sep t)).
    simpl. destruct (str_split_app_pieces sep pre t) as (w1 & w2 & ws & Hs).
    rewrite Hs in *. rewrite <- IH.
    destruct (Ascii.eqb c sep); rewrite !index_last_cons; reflexivity.
Qed.

Lemma set_filename_same (self : Networks.t) : set_filename (filename self) self = self.
Proof. destruct self; reflexivity. Qed.

(** X4. [model_post_init] is idempotent: run on an object it has already
    normalised, it changes nothing. *)
Theorem model_post_init_idempotent (self : Networks.t) :
  leaves model_post_init (leaves model_post_init self) = leaves model_post_init self.
Proof.
  rewrite (model_post_init_value (leaves model_post_init self)).
  rewrite (model_post_init_value self). simpl.
  set (W := py_sorted by_rssi_reversed (wifi_source self)).
  set (B := py_sorted by_rssi_reversed (bt self)).
  set (F := filename (ModelFacts.with_filename self)).
  assert (HW : wifi_source (Networks.mk (meta self) (networks self) F
                  (Z.of_nat (length W)) (Z.of_nat (length B)) W B) = W).
  { unfold wifi_source. simpl.
    destruct (networks self) as [|n ns] eqn:En; [reflexivity|].
    destruct W as [|w ws] eqn:EW; [|reflexivity].
    unfold W in EW. apply py_sorted_nil_inv in EW.
    unfold wifi_source in EW. rewrite En in EW. simpl in EW.
    destruct (wifi self); simpl in EW; discriminate EW. }
  rewrite HW.
  rewrite (py_sorted_id by_rssi_reversed W) by apply by_rssi_reversed_sorted.
  rewrite (py_sorted_id by_rssi_reversed B) by apply by_rssi_reversed_sorted.
  f_equal.
  unfold ModelFacts.with_filename. simpl filename at 1.
  change (meta_filepath _) with (meta_filepath self).
  destruct (str_truthy F) eqn:EF; [reflexivity|].
  destruct (meta_filepath self) as [fp|] eqn:Em; [|reflexivity].
  destruct (str_split_last "/" fp) as (name & Hlast & _).
  rewrite Hlast. simpl.
  unfold F, ModelFacts.with_filename in *.
  destruct (str_truthy (filename self)) eqn:Es.
  - congruence.
  - rewrite Em, Hlast. reflexivity.
Qed.

(** X5. The file name: a name that was given is kept; with no name given
    and no [meta], or a [meta] without a non-empty [filepath], the name stays
    empty; a [filepath] that ends in ['/'] gives the empty name. *)
Theorem model_post_init_filename_cases (self : Networks.t) :
  (filename self <> EmptyString ->
   filename (leaves model_post_init self) = filename self) /\
  (filename self = EmptyString -> meta self = None ->
   filename (leaves model_post_init self) = EmptyString) /\
  (forall m, filename self = EmptyString -> meta self = Some m ->
     Meta.filepath m = None \/ Meta.filepath m = Some EmptyString ->
     filename (leaves model_post_init self) = EmptyString) /\
  (forall m pre, filename self = EmptyString -> meta self = Some m ->
     Meta.filepath m = Some (pre ++ "/")%string ->
     filename (leaves model_post_init self) = EmptyString).
Proof.
  rewrite ModelFacts.model_post_init_filename. unfold ModelFacts.with_filename.
  split; [|split; [|split]].
  - intros Hne. destruct (filename self) eqn:E; [congruence|]. simpl. exact E.
  - intros Hf Hm. rewrite Hf. unfold meta_filepath. rewrite Hm. simpl. exact Hf.
  - intros m Hf Hm Hp. rewrite Hf. unfold meta_filepath. rewrite Hm.
    destruct Hp as [-> | ->]; simpl; exact Hf.
  - intros m pre Hf Hm Hp. rewrite Hf. unfold meta_filepath. rewrite Hm, Hp.
    simpl str_truthy. cbv iota.
    assert (Hlast : index_last (str_split "/" (pre ++ "/")) = Ok EmptyString).
    { rewrite index_last_split_app. reflexivity. }
    assert (Htruthy : opt_str_truthy (Some (pre ++ "/")%string) = true).
    { destruct pre; reflexivity. }
    rewrite Htruthy, Hlast. reflexivity.
Qed.

Example model_post_init_filename_cases_witness :
  filename (leaves model_post_init
              (Networks.mk (Some (Meta.mk None (Some "/data/") None None None None None None))
                 [] "" 0 0 [] [])) = EmptyString.
Proof.
  destruct (model_post_init_filename_cases
              (Networks.mk (Some (Meta.mk None (Some "/data/") None None None None None None))
                 [] "" 0 0 [] [])) as (_ & _ & _ & Hslash).
  apply (Hslash (Meta.mk None (Some "/data/"%string) None None None None None None)
           "/data"%string); reflexivity.
Defined.

(** X6. The sort of [model_post_init] is stable: networks with the same
    RSSI stand in the order in which they were given. *)
Theorem model_post_init_stable (self : Networks.t) (r : Z) :
  List.filter (fun x => Network.rssi x =? r) (wifi (leaves model_post_init self))
  = List.filter (fun x => Network.rssi x =? r) (wifi_source self) /\
  List.filter (fun x => Network.rssi x =? r) (bt (leaves model_post_init self))
  = List.filter (fun x => Network.rssi x =? r) (bt self).
Proof.
  rewrite model_post_init_value. simpl.
  split; apply py_sorted_stable; intros x y Hx Hy;
    apply Z.eqb_eq in Hx, Hy; unfold by_rssi_reversed; apply Z.leb_le; lia.
Qed.

(** *** The query [get_networks] *)

(** [l[:n]] is a prefix of [l]; a negative [n] counts from the end. *)
Lemma py_slice_prefix {A} (l : list A) (n : Z) :
  py_slice l 0 n = take (Z.to_nat (slice_index (Z.of_nat (length l)) n)) l.
Proof.
  unfold py_slice. unfold slice_index at 2 3. simpl (0 <? 0).
  rewrite Z.min_l by lia. rewrite Z.sub_0_r. reflexivity.
Qed.

Lemma filter_sublist {A} (f : A -> bool) (l : list A) : List.filter f l `sublist_of` l.
Proof.
  induction l as [|x l IH]; simpl; [constructor|].
  destruct (f x); [apply sublist_skip | apply sublist_cons]; exact IH.
Qed.

Lemma StronglySorted_sublist {A} (R : A -> A -> Prop) (l1 l2 : list A) :
  l1 `sublist_of` l2 -> StronglySorted R l2 -> StronglySorted R l1.
Proof.
  induction 1 as [|x l1 l2 Hsub IH|x l1 l2 Hsub IH]; intros Hs.
  - constructor.
  - apply StronglySorted_inv in Hs as [Hs Hall]. constructor; [apply IH, Hs|].
    rewrite List.Forall_forall in *. intros y Hy. apply Hall.
    apply list_elem_of_In. eapply elem_of_sublist; [|exact Hsub].
    apply list_elem_of_In, Hy.
  - apply StronglySorted_inv in Hs as [Hs _]. apply IH, Hs.
Qed.

Definition rssi_between (lo hi : Z) (x : Network.t) : bool :=
  (lo <=? Network.rssi x) && (Network.rssi x <=? hi).

Lemma if_truthy_else_given (v : Z) (d : result Z) :
  v <> 0 -> if_truthy_else (Some v) d = Ok v.
Proof.
  intros Hv. unfold if_truthy_else, opt_int_truthy.
  destruct (Z.eqb_spec v 0); [contradiction | reflexivity].
Qed.

Lemma if_truthy_else_cases (x : option Z) (d : result Z) :
  (exists v, x = Some v /\ v <> 0 /\ if_truthy_else x d = Ok v) \/
  ((x = None \/ x = Some 0) /\ if_truthy_else x d = d).
Proof.
  destruct x as [v|]; [|right; split; [left|]; reflexivity].
  destruct (Z.eq_dec v 0) as [-> | Hv].
  - right. split; [right|]; reflexivity.
  - left. exists v. split; [reflexivity|]. split; [exact Hv|].
    apply if_truthy_else_given, Hv.
Qed.

(** The query on a non-empty list: the bounds and the count in use, and the
    slice of the filtered list it returns. *)
Lemma query_shape (nets : list Network.t) (a b c : option Z) :
  nets <> [] ->
  exists lo hi n,
    if_truthy_else a (py_min (map Network.rssi nets)) = Ok lo /\
    if_truthy_else b (py_max (map Network.rssi nets)) = Ok hi /\
    if_truthy_else c (Ok (Z.of_nat (length nets))) = Ok n /\
    ModelFacts.query nets a b c = Ok (py_slice (List.filter (rssi_between lo hi) nets) 0 n).
Proof.
  intros Hne.
  destruct (py_min_max_bounds (map Network.rssi nets)) as (mn & mx & Hmn & Hmx & _).
  { destruct nets; [congruence | discriminate]. }
  assert (Ha : exists lo, if_truthy_else a (py_min (map Network.rssi nets)) = Ok lo).
  { destruct (if_truthy_else_cases a (py_min (map Network.rssi nets)))
      as [(v & _ & _ & ->) | [_ ->]]; rewrite ?Hmn; eauto. }
  assert (Hb : exists hi, if_truthy_else b (py_max (map Network.rssi nets)) = Ok hi).
  { destruct (if_truthy_else_cases b (py_max (map Network.rssi nets)))
      as [(v & _ & _ & ->) | [_ ->]]; rewrite ?Hmx; eauto. }
  assert (Hc : exists n, if_truthy_else c (Ok (Z.of_nat (length nets))) = Ok n).
  { destruct (if_truthy_else_cases c (Ok (Z.of_nat (length nets))))
      as [(v & _ & _ & ->) | [_ ->]]; eauto. }
  destruct Ha as (lo & Ha), Hb as (hi & Hb), Hc as (n & Hc).
  exists lo, hi, n. split; [exact Ha|]. split; [exact Hb|]. split; [exact Hc|].
  unfold ModelFacts.query. destruct nets as [|x nets]; [congruence|].
  simpl negb. cbv zeta. rewrite Ha, Hb, Hc. reflexivity.
Qed.

(** X7. What [get_networks] returns is taken from the selected list
    without changing the order; every record lies within a bound that was
    given (and is not 0); and no more than a given positive [max_networks]
    records are returned. *)
Theorem get_networks_result (self : Networks.t) (min_rssi max_rssi max_networks : option Z)
    (device_type : string) (out : list Network.t) :
  returns (get_networks min_rssi max_rssi max_networks device_type) self = Ok out ->
  exists nets,
    select_nets self device_type = Ok nets /\
    out `sublist_of` nets /\
    (forall v, min_rssi = Some v -> v <> 0 -> Forall (fun x => v <= Network.rssi x) out) /\
    (forall v, max_rssi = Some v -> v <> 0 -> Forall (fun x => Network.rssi x <= v) out) /\
    (forall n, max_networks = Some n -> 0 < n -> Z.of_nat (length out) <= n).
Proof.
  rewrite ModelFacts.get_networks_query.
  destruct (select_nets self device_type) as [nets|e] eqn:Hsel; [|discriminate].
  intros Hq. change (ModelFacts.query nets min_rssi max_rssi max_networks = Ok out) in Hq.
  exists nets. split; [reflexivity|].
  destruct nets as [|x0 nets0] eqn:En.
  { injection Hq as <-. repeat split; intros; try constructor. simpl. lia. }
  rewrite <- En in *. assert (Hne : nets <> []) by (rewrite En; discriminate).
  destruct (query_shape nets min_rssi max_rssi max_networks Hne)
    as (lo & hi & n & Hlo & Hhi & Hn & Hshape).
  rewrite Hshape in Hq. injection Hq as <-. rewrite py_slice_prefix.
  set (F := List.filter (rssi_between lo hi) nets).
  set (k := Z.to_nat (slice_index (Z.of_nat (length F)) n)).
  assert (Hin : forall x, In x (take k F) -> lo <= Network.rssi x <= hi).
  { intros x Hx. assert (In x F) as HF.
    { apply list_elem_of_In. eapply elem_of_sublist; [apply list_elem_of_In, Hx|].
      apply sublist_take. }
    apply filter_In in HF as [_ HF]. unfold rssi_between in HF.
    apply andb_true_iff in HF as [H1 H2]. apply Z.leb_le in H1, H2. lia. }
  split; [|split; [|split]].
  - transitivity F; [apply sublist_take | apply filter_sublist].
  - intros v -> Hv. rewrite if_truthy_else_given in Hlo by exact Hv.
    injection Hlo as <-. apply List.Forall_forall. intros x Hx. apply Hin, Hx.
  - intros v -> Hv. rewrite if_truthy_else_given in Hhi by exact Hv.
    injection Hhi as <-. apply List.Forall_forall. intros x Hx. apply Hin, Hx.
  - intros m -> Hm. rewrite if_truthy_else_given in Hn by lia.
    injection Hn as <-. rewrite length_take. unfold k, slice_index.
    destruct (Z.ltb_spec m 0); lia.
Qed.

Example get_networks_result_witness :
  exists nets,
    select_nets (Networks.mk None [] "" 3 0 ModelExamples.three []) "wifi" = Ok nets /\
    [ModelExamples.net "bb" (-70)] `sublist_of` nets.
Proof.
  destruct (get_networks_result (Networks.mk None [] "" 3 0 ModelExamples.three [])
              (Some (-80)) (Some (-60)) (Some 5) "wifi" [ModelExamples.net "bb" (-70)]
              eq_refl) as (nets & Hsel & Hsub & _).
  exists nets. split; assumption.
Defined.

Lemma query_total (nets : list Network.t) (a b c : option Z) :
  exists out, ModelFacts.query nets a b c = Ok out.
Proof.
  destruct nets as [|x nets]; [exists []; reflexivity|].
  destruct (query_shape (x :: nets) a b c) as (lo & hi & n & _ & _ & _ & ->);
    [discriminate | eauto].
Qed.

(** X8. [get_networks] never fails for ['wifi'] and ['bt'], whatever the
    lists and the arguments; for every other [device_type] it fails with
    [UnboundLocalError]. *)
Theorem get_networks_device_type (self : Networks.t)
    (min_rssi max_rssi max_networks : option Z) (device_type : string) :
  (device_type = "wifi"%string \/ device_type = "bt"%string ->
   exists out,
     returns (get_networks min_rssi max_rssi max_networks device_type) self = Ok out) /\
  (device_type <> "wifi"%string -> device_type <> "bt"%string ->
   returns (get_networks min_rssi max_rssi max_networks device_type) self
   = Raise UnboundLocalError).
Proof.
  rewrite ModelFacts.get_networks_query. split.
  - intros [-> | ->].
    + rewrite ModelFacts.select_nets_wifi. apply query_total.
    + rewrite ModelFacts.select_nets_bt. apply query_total.
  - intros Hw Hb. unfold select_nets.
    apply String.eqb_neq in Hw, Hb. rewrite Hw, Hb. reflexivity.
Qed.

Example get_networks_device_type_witness :
  returns (get_networks None None None "ble")
    (Networks.mk None [] "" 3 0 ModelExamples.three []) = Raise UnboundLocalError.
Proof.
  destruct (get_networks_device_type (Networks.mk None [] "" 3 0 ModelExamples.three [])
              None None None "ble") as [_ Hother].
  apply Hother; discriminate.
Defined.

(** X9. A negative [max_networks] does not cap the count: as a slice bound
    it counts from the end, so the last [-max_networks] records of the
    filtered list are left out. *)
Theorem get_networks_negative_count (self : Networks.t) (min_rssi max_rssi : option Z)
    (n : Z) (device_type : string) (nets : list Network.t) (lo hi : Z) :
  select_nets self device_type = Ok nets -> nets <> [] ->
  if_truthy_else min_rssi (py_min (map Network.rssi nets)) = Ok lo ->
  if_truthy_else max_rssi (py_max (map Network.rssi nets)) = Ok hi ->
  n < 0 ->
  returns (get_networks min_rssi max_rssi (Some n) device_type) self
  = Ok (take (length (List.filter (rssi_between lo hi) nets) - Z.to_nat (- n))
          (List.filter (rssi_between lo hi) nets)).
Proof.
  intros Hsel Hne Hlo Hhi Hn. rewrite ModelFacts.get_networks_query, Hsel.
  change (ModelFacts.query nets min_rssi max_rssi (Some n) = Ok
            (take (length (List.filter (rssi_between lo hi) nets) - Z.to_nat (- n))
               (List.filter (rssi_between lo hi) nets))).
  destruct (query_shape nets min_rssi max_rssi (Some n) Hne)
    as (lo' & hi' & n' & Hlo' & Hhi' & Hn' & ->).
  rewrite Hlo in Hlo'. rewrite Hhi in Hhi'. injection Hlo' as <-. injection Hhi' as <-.
  rewrite if_truthy_else_given in Hn' by lia. injection Hn' as <-.
  rewrite py_slice_prefix. do 2 f_equal. unfold slice_index.
  destruct (Z.ltb_spec n 0); lia.
Qed.

Example get_networks_negative_count_witness :
  returns (get_networks None None (Some (-1)) "wifi")
    (Networks.mk None [] "" 3 0 ModelExamples.three [])
  = Ok [ModelExamples.net "aa" (-50); ModelExamples.net "bb" (-70)].
Proof.
  apply (get_networks_negative_count (Networks.mk None [] "" 3 0 ModelExamples.three [])
           None None (-1) "wifi" ModelExamples.three (-90) (-50)).
  - reflexivity.
  - discriminate.
  - reflexivity.
  - reflexivity.
  - lia.
Defined.

Lemma get_networks_sublist (self : Networks.t) (a b c : option Z)
    (device_type : string) (out : list Network.t) :
  returns (get_networks a b c device_type) self = Ok out ->
  exists nets, select_nets self device_type = Ok nets /\ out `sublist_of` nets.
Proof.
  rewrite ModelFacts.get_networks_query.
  destruct (select_nets self device_type) as [nets|e] eqn:Hsel; [|discriminate].
  intros Hq. change (ModelFacts.query nets a b c = Ok out) in Hq.
  exists nets. split; [reflexivity|].
  destruct (list_eq_nil_dec nets) as [-> | Hne].
  - injection Hq as <-. constructor.
  - destruct (query_shape nets a b c Hne) as (lo & hi & n & _ & _ & _ & Hshape).
    rewrite Hshape in Hq. injection Hq as <-. rewrite py_slice_prefix.
    transitivity (List.filter (rssi_between lo hi) nets);
      [apply sublist_take | apply filter_sublist].
Qed.

(** Every list the query can select on a normalised container is in
    descending order of RSSI. *)
Lemma select_nets_sorted_after_init (self : Networks.t) (device_type : string)
    (nets : list Network.t) :
  select_nets (leaves model_post_init self) device_type = Ok nets ->
  StronglySorted rssi_desc nets.
Proof.
  rewrite model_post_init_value. unfold select_nets. simpl.
  destruct (String.eqb device_type "wifi").
  - intros [= <-].
    destruct (py_sorted by_rssi_reversed (wifi_source self)) as [|w ws] eqn:EW.
    + apply py_sorted_nil_inv in EW. unfold wifi_source in EW. simpl.
      destruct (networks self) as [|n ns]; [constructor|].
      destruct (wifi self); simpl in EW; discriminate EW.
    + simpl. rewrite <- EW. apply py_sorted_rssi_desc.
  - destruct (String.eqb device_type "bt"); [|discriminate].
    intros [= <-]. apply py_sorted_rssi_desc.
Qed.

(** X10. On a container normalised by [model_post_init] the query returns
    the records strongest first: in descending order of RSSI. *)
Theorem get_networks_sorted_after_init (self : Networks.t)
    (min_rssi max_rssi max_networks : option Z) (device_type : string)
    (out : list Network.t) :
  returns (get_networks min_rssi max_rssi max_networks device_type)
    (leaves model_post_init self) = Ok out ->
  StronglySorted rssi_desc out.
Proof.
  intros Hq.
  destruct (get_networks_sublist _ _ _ _ _ _ Hq) as (nets & Hsel & Hsub).
  eapply StronglySorted_sublist; [exact Hsub|].
  eapply select_nets_sorted_after_init, Hsel.
Qed.

Example get_networks_sorted_after_init_witness :
  StronglySorted rssi_desc [ModelExamples.net "bb" (-70); ModelExamples.net "cc" (-90)].
Proof.
  apply (get_networks_sorted_after_init
           (Networks.mk None [ModelExamples.net "cc" (-90); ModelExamples.net "aa" (-50);
                              ModelExamples.net "bb" (-70)] "" 0 0 [] [])
           None (Some (-60)) None "wifi").
  reflexivity.
Defined.

(** X19. On a container normalised by [model_post_init] the fall-back of
    the query never shows: for ['wifi'] the list it works on is the [wifi]
    list, and the count [n_wifi] is the number of records a query without
    bounds returns. *)
Theorem get_networks_after_init_uses_wifi (self : Networks.t) :
  select_nets (leaves model_post_init self) "wifi"
    = Ok (wifi (leaves model_post_init self)) /\
  returns (get_networks None None None "wifi") (leaves model_post_init self)
    = Ok (wifi (leaves model_post_init self)) /\
  n_wifi (leaves model_post_init self)
    = Z.of_nat (length (wifi (leaves model_post_init self))).
Proof.
  assert (Hsel : select_nets (leaves model_post_init self) "wifi"
                 = Ok (wifi (leaves model_post_init self))).
  { rewrite ModelFacts.select_nets_wifi. rewrite model_post_init_value. simpl.
    destruct (py_sorted by_rssi_reversed (wifi_source self)) as [|w ws] eqn:EW;
      [|reflexivity].
    apply py_sorted_nil_inv in EW. unfold wifi_source in EW. simpl.
    destruct (networks self) as [|n ns]; [reflexivity|].
    destruct (wifi self); simpl in EW; discriminate EW. }
  split; [exact Hsel|]. split.
  - rewrite ModelFacts.get_networks_query, Hsel. apply ModelFacts.query_no_bounds.
  - rewrite model_post_init_value. reflexivity.
Qed.

End ModelMore.

(** * Further properties of the converter *)

Module WigleMore.
Import Wigle.

(** *** The signed distance *)

Lemma get_geo_distance_cases geodesic (p1 p2 : point) :
  ((fst p2 < fst p1)%Q \/ (snd p1 < snd p2)%Q) /\
    GeoMath.get_geo_distance geodesic p1 p2 = (- geodesic p1 p2)%Q \/
  ((fst p1 <= fst p2)%Q /\ (snd p2 <= snd p1)%Q) /\
    GeoMath.get_geo_distance geodesic p1 p2 = geodesic p1 p2.
Proof.
  unfold GeoMath.get_geo_distance.
  destruct (float_lt (fst p2) (fst p1)) eqn:E1.
  { left. apply float_lt_iff in E1. split; [left; exact E1 | reflexivity]. }
  destruct (float_gt (snd p2) (snd p1)) eqn:E2.
  { left. apply float_gt_iff in E2. split; [right; exact E2 | reflexivity]. }
  right. apply float_lt_false_iff in E1. apply float_gt_false_iff in E2.
  split; [split; assumption | reflexivity].
Qed.

(** X11. The signed distance is not an antisymmetric quantity: between a
    point and one to its north-east both directions are negative (or zero).
    Along a meridian, with a symmetric geodesic distance, swapping the two
    points does flip the sign. *)
Theorem get_geo_distance_swap (geodesic : point -> point -> Q)
    (geodesic_nonneg : forall p q, (0 <= geodesic p q)%Q)
    (geodesic_sym : forall p q, (geodesic p q == geodesic q p)%Q)
    (p q : point) :
  ((fst p < fst q)%Q -> (snd p < snd q)%Q ->
   (GeoMath.get_geo_distance geodesic p q <= 0)%Q /\
   (GeoMath.get_geo_distance geodesic q p <= 0)%Q) /\
  ((fst p < fst q)%Q -> (snd p == snd q)%Q ->
   (GeoMath.get_geo_distance geodesic p q == - GeoMath.get_geo_distance geodesic q p)%Q /\
   (0 <= GeoMath.get_geo_distance geodesic p q)%Q).
Proof.
  pose proof (geodesic_nonneg p q) as Hpq. pose proof (geodesic_nonneg q p) as Hqp.
  pose proof (geodesic_sym p q) as Hsym.
  split.
  - intros Hlat Hlon.
    destruct (get_geo_distance_cases geodesic p q) as [[_ ->] | [[_ H] _]]; [|lra].
    destruct (get_geo_distance_cases geodesic q p) as [[_ ->] | [[H _] _]]; [|lra].
    split; lra.
  - intros Hlat Hlon.
    destruct (get_geo_distance_cases geodesic p q) as [[[H | H] _] | [_ ->]];
      [lra | lra |].
    destruct (get_geo_distance_cases geodesic q p) as [[_ ->] | [[H _] _]]; [|lra].
    split; lra.
Qed.

Example get_geo_distance_swap_witness :
  (GeoMath.get_geo_distance GeoMath.taxicab (52, 13)%Q (53, 14)%Q <= 0)%Q /\
  (GeoMath.get_geo_distance GeoMath.taxicab (53, 14)%Q (52, 13)%Q <= 0)%Q.
Proof.
  assert (Hsym : forall p q, (GeoMath.taxicab p q == GeoMath.taxicab q p)%Q).
  { intros p q. unfold GeoMath.taxicab.
    rewrite <- (Qabs_opp (fst p - fst q)), <- (Qabs_opp (snd p - snd q)).
    assert (H1 : (- (fst p - fst q) == fst q - fst p)%Q) by ring.
    assert (H2 : (- (snd p - snd q) == snd q - snd p)%Q) by ring.
    rewrite H1, H2. reflexivity. }
  destruct (get_geo_distance_swap GeoMath.taxicab GeoMath.taxicab_nonneg Hsym
              (52, 13)%Q (53, 14)%Q) as [Hne _].
  apply Hne; reflexivity.
Defined.

(** *** One converted record *)

Lemma calc_geo_rssi_antitone geodesic (p1 p2 q1 q2 : point) :
  (geodesic p1 p2 <= geodesic q1 q2)%Q ->
  GeoMath.calc_geo_rssi geodesic q1 q2 <= GeoMath.calc_geo_rssi geodesic p1 p2.
Proof.
  intros H. unfold GeoMath.calc_geo_rssi.
  repeat match goal with
  | |- context [float_gt ?a ?b] =>
      let E := fresh "E" in
      destruct (float_gt a b) eqn:E;
      [apply float_gt_iff in E | apply float_gt_false_iff in E]
  end; try lia; exfalso; lra.
Qed.

(** X12. A converted record: the identifying fields are those of the
    input; [distance_xy] has the geodesic distance to the target as its
    absolute value; [distance_x] is negative only for a record east of the
    target and [distance_y] only for a record south of it; the RSSI is one of
    the six values of the table; and a record that lies at the target has
    three zero distances and the RSSI -50. *)
Theorem convert_record (geodesic : point -> point -> Q)
    (geodesic_nonneg : forall p q, (0 <= geodesic p q)%Q)
    (geodesic_refl : forall p, (geodesic p p == 0)%Q)
    (target_lat target_long : Q) (network : Raw.t) :
  let sl := convert geodesic target_lat target_long network in
  (SlNetwork.bssid sl = Raw.netid network /\
   SlNetwork.channel sl = Raw.channel network /\
   SlNetwork.lat sl = Raw.trilat network /\
   SlNetwork.lon sl = Raw.trilong network /\
   SlNetwork.qos sl = Raw.qos network /\
   SlNetwork.ssid sl = Raw.ssid network) /\
  (Qabs (SlNetwork.distance_xy sl)
   == geodesic (target_lat, target_long) (Raw.trilat network, Raw.trilong network))%Q /\
  ((SlNetwork.distance_x sl < 0)%Q -> (target_long < Raw.trilong network)%Q) /\
  ((SlNetwork.distance_y sl < 0)%Q -> (Raw.trilat network < target_lat)%Q) /\
  In (SlNetwork.rssi sl) [-90; -80; -75; -65; -55; -50] /\
  (Raw.trilat network = target_lat -> Raw.trilong network = target_long ->
   (SlNetwork.distance_x sl == 0)%Q /\ (SlNetwork.distance_xy sl == 0)%Q /\
   (SlNetwork.distance_y sl == 0)%Q /\ SlNetwork.rssi sl = -50).
Proof.
  cbv zeta. unfold convert. simpl.
  split; [repeat split|]. split; [|split; [|split; [|split]]].
  - pose proof (geodesic_nonneg (target_lat, target_long)
                  (Raw.trilat network, Raw.trilong network)) as Hd.
    destruct (get_geo_distance_cases geodesic (target_lat, target_long)
                (Raw.trilat network, Raw.trilong network)) as [[_ ->] | [_ ->]].
    + rewrite Qabs_opp. apply Qabs_pos, Hd.
    + apply Qabs_pos, Hd.
  - intros Hneg.
    pose proof (geodesic_nonneg (target_lat, target_long)
                  (target_lat, Raw.trilong network)) as Hd.
    destruct (get_geo_distance_cases geodesic (target_lat, target_long)
                (target_lat, Raw.trilong network)) as [[[H | H] _] | [_ Heq]];
      simpl in *; [lra | exact H | rewrite Heq in Hneg; lra].
  - intros Hneg.
    pose proof (geodesic_nonneg (target_lat, target_long)
                  (Raw.trilat network, target_long)) as Hd.
    destruct (get_geo_distance_cases geodesic (target_lat, target_long)
                (Raw.trilat network, target_long)) as [[[H | H] _] | [_ Heq]];
      simpl in *; [exact H | lra | rewrite Heq in Hneg; lra].
  - unfold GeoMath.calc_geo_rssi.
    repeat match goal with
    | |- context [float_gt ?a ?b] => destruct (float_gt a b)
    end; simpl; tauto.
  - intros -> ->.
    pose proof (geodesic_refl (target_lat, target_long)) as H0.
    assert (Hd : (GeoMath.get_geo_distance geodesic (target_lat, target_long)
                    (target_lat, target_long) == 0)%Q).
    { destruct (get_geo_distance_cases geodesic (target_lat, target_long)
                  (target_lat, target_long)) as [[_ ->] | [_ ->]]; lra. }
    split; [exact Hd|]. split; [exact Hd|]. split; [exact Hd|].
    unfold GeoMath.calc_geo_rssi.
    repeat match goal with
    | |- context [float_gt ?a ?b] =>
        let E := fresh "E" in
        destruct (float_gt a b) eqn:E;
        [apply float_gt_iff in E; exfalso; lra | clear E]
    end. reflexivity.
Qed.

Example convert_record_witness :
  (Qabs (SlNetwork.distance_xy (convert GeoMath.taxicab 3 0 (WigleFacts.Sample.raw 5)))
   == GeoMath.taxicab (3, 0)%Q (5, 0)%Q)%Q.
Proof.
  apply (convert_record GeoMath.taxicab GeoMath.taxicab_nonneg GeoMath.taxicab_refl
           3 0 (WigleFacts.Sample.raw 5)).
Defined.

(** *** The sorted list *)

Lemma StronglySorted_impl_in {A} (R R' : A -> A -> Prop) (l : list A) :
  (forall x y, In x l -> In y l -> R x y -> R' x y) ->
  StronglySorted R l -> StronglySorted R' l.
Proof.
  intros Himp Hs. induction Hs as [|x l Hs IH Hall]; constructor.
  - apply IH. intros u v Hu Hv. apply Himp; right; assumption.
  - rewrite List.Forall_forall in *. intros y Hy.
    apply Himp; [left; reflexivity | right; exact Hy | apply Hall, Hy].
Qed.

(** X13. Closest first is strongest first: with a geodesic distance that
    is non-negative and symmetric, the RSSI values along the sorted list
    never increase. *)
Theorem sorted_networks_rssi_desc (geodesic : point -> point -> Q)
    (geodesic_nonneg : forall p q, (0 <= geodesic p q)%Q)
    (geodesic_sym : forall p q, (geodesic p q == geodesic q p)%Q)
    (a : args) (data : list Raw.t) :
  StronglySorted (fun x y => SlNetwork.rssi y <= SlNetwork.rssi x)
    (sorted_networks geodesic a data).
Proof.
  destruct (WigleFacts.sorted_networks_sorted geodesic a data) as [Hs Hperm].
  refine (StronglySorted_impl_in _ _ _ _ Hs).
  assert (Hkey : forall r,
             (sort_key (convert geodesic (target_lat a) (target_long a) r)
              == geodesic (Raw.trilat r, Raw.trilong r) (target_lat a, target_long a))%Q).
  { intros r. unfold sort_key, convert. simpl.
    pose proof (geodesic_nonneg (target_lat a, target_long a)
                  (Raw.trilat r, Raw.trilong r)) as Hd.
    rewrite <- geodesic_sym.
    destruct (get_geo_distance_cases geodesic (target_lat a, target_long a)
                (Raw.trilat r, Raw.trilong r)) as [[_ ->] | [_ ->]].
    - rewrite Qabs_opp. apply Qabs_pos, Hd.
    - apply Qabs_pos, Hd. }
  intros x y Hx Hy Hxy.
  apply (Permutation_in _ Hperm), in_map_iff in Hx as (rx & <- & _).
  apply (Permutation_in _ Hperm), in_map_iff in Hy as (ry & <- & _).
  rewrite !Hkey in Hxy.
  unfold convert at 1 2. simpl. apply calc_geo_rssi_antitone, Hxy.
Qed.

Example sorted_networks_rssi_desc_witness :
  StronglySorted (fun x y => SlNetwork.rssi y <= SlNetwork.rssi x)
    WigleFacts.Sample.networks45.
Proof.
  assert (Hsym : forall p q, (GeoMath.taxicab p q == GeoMath.taxicab q p)%Q).
  { intros p q. unfold GeoMath.taxicab.
    rewrite <- (Qabs_opp (fst p - fst q)), <- (Qabs_opp (snd p - snd q)).
    assert (H1 : (- (fst p - fst q) == fst q - fst p)%Q) by ring.
    assert (H2 : (- (snd p - snd q) == snd q - snd p)%Q) by ring.
    rewrite H1, H2. reflexivity. }
  exact (sorted_networks_rssi_desc GeoMath.taxicab GeoMath.taxicab_nonneg Hsym
           WigleFacts.Sample.target WigleFacts.Sample.data45).
Defined.

(** X14. The sort by distance is stable: records at the same distance from
    the target (on whichever side) stand in the order of the input. *)
Theorem sorted_networks_stable (geodesic : point -> point -> Q)
    (a : args) (data : list Raw.t) (d : Q) :
  List.filter (fun x => Qeq_bool (sort_key x) d) (sorted_networks geodesic a data)
  = List.filter (fun x => Qeq_bool (sort_key x) d)
      (map (convert geodesic (target_lat a) (target_long a)) data).
Proof.
  unfold sorted_networks. apply ModelMore.py_sorted_stable.
  intros x y Hx Hy. apply Qeq_bool_iff in Hx, Hy.
  unfold by_distance, float_le. apply Qle_bool_iff. rewrite Hx, Hy. apply Qle_refl.
Qed.

(** *** The loop that writes the files *)

(** X15. A chunk size that is not positive: with at least one network the
    loop never ends, whatever the fuel; with no network it ends at once and
    writes nothing, whatever the chunk size. *)
Theorem write_loop_nonpositive (os_sep out_dir : string) (sl_meta : SlMeta.t)
    (sl_networks : list SlNetwork.t) (nets_per_of : Z) :
  (nets_per_of <= 0 -> sl_networks <> [] ->
   forall fuel, write_loop os_sep out_dir sl_meta sl_networks nets_per_of fuel 0 0 ∅ = None) /\
  (sl_networks = [] ->
   forall fuel, write_loop os_sep out_dir sl_meta sl_networks nets_per_of (S fuel) 0 0 ∅
                = Some ∅).
Proof.
  split.
  - intros Hk Hne fuel.
    assert (Hgen : forall (i c : Z) (fs : files),
               c < Z.of_nat (length sl_networks) ->
               write_loop os_sep out_dir sl_meta sl_networks nets_per_of fuel i c fs = None).
    { induction fuel as [|fuel IH]; intros i c fs Hc; [reflexivity|].
      rewrite WigleFacts.write_loop_S.
      destruct (Z.ltb_spec c (Z.of_nat (length sl_networks))) as [_ | Hge]; [|lia].
      destruct (Z.eqb_spec (Z.of_nat (length sl_networks) - c) 0) as [Hz | _]; [lia|].
      destruct (Z.ltb_spec (Z.of_nat (length sl_networks) - c) nets_per_of)
        as [Hlt | _]; [lia|].
      cbv zeta. apply IH. lia. }
    apply Hgen. destruct sl_networks; [congruence | simpl; lia].
  - intros -> fuel. reflexivity.
Qed.

Example write_loop_nonpositive_witness :
  write_loop "/" "out" WigleFacts.Sample.meta WigleFacts.Sample.networks45 (-3) 1000 0 0 ∅
  = None.
Proof.
  destruct (write_loop_nonpositive "/" "out" WigleFacts.Sample.meta
              WigleFacts.Sample.networks45 (-3)) as [Hruns _].
  apply Hruns; [lia | discriminate].
Defined.

Lemma py_slice_window {A} (l : list A) (c k : Z) :
  0 <= c <= Z.of_nat (length l) -> 0 <= k ->
  py_slice l c (c + k) = take (Z.to_nat k) (drop (Z.to_nat c) l).
Proof.
  intros Hc Hk. unfold py_slice, slice_index.
  destruct (Z.ltb_spec c 0) as [Hneg | _]; [lia|].
  destruct (Z.ltb_spec (c + k) 0) as [Hneg | _]; [lia|].
  rewrite (Z.min_l c) by lia.
  destruct (Z.le_gt_cases (c + k) (Z.of_nat (length l))) as [Hle | Hgt].
  - rewrite Z.min_l by lia. f_equal. lia.
  - rewrite Z.min_r by lia. rewrite !take_ge; [reflexivity | |];
      rewrite length_drop; lia.
Qed.

(** X16. Which records go where: for a positive chunk size [K], file
    number [j + 1] holds the slice [sl_networks[j*K : j*K + K]] with the
    shared meta block, and the directory holds no file besides
    [skylift_1.json] ... [skylift_n.json]. *)
Theorem write_loop_files (os_sep out_dir : string) (sl_meta : SlMeta.t)
    (sl_networks : list SlNetwork.t) (nets_per_of : Z) (fuel : nat) :
  0 < nets_per_of -> (length sl_networks < fuel)%nat ->
  exists fs : files,
    write_loop os_sep out_dir sl_meta sl_networks nets_per_of fuel 0 0 ∅ = Some fs /\
    (forall j, 0 <= j < ceil_div (Z.of_nat (length sl_networks)) nets_per_of ->
       fs !! path_of os_sep out_dir j
       = Some (SlData.mk sl_meta
                 (py_slice sl_networks (j * nets_per_of) (j * nets_per_of + nets_per_of)))) /\
    (forall name,
       (forall j, 0 <= j < ceil_div (Z.of_nat (length sl_networks)) nets_per_of ->
                  name <> path_of os_sep out_dir j) ->
       fs !! name = None).
Proof.
  intros Hk Hfuel.
  destruct (WigleFacts.write_loop_spec os_sep out_dir sl_meta sl_networks nets_per_of
              Hk fuel 0 0 ∅) as (fs & Hrun & _ & Hframe & Hlook & _).
  { lia. }
  { lia. }
  { intros j _. apply lookup_empty. }
  rewrite Z.sub_0_r in *.
  pose proof (WigleFacts.ceil_div_bounds (Z.of_nat (length sl_networks)) nets_per_of Hk) as Hb.
  exists fs. split; [exact Hrun|]. split.
  - intros j Hj. rewrite <- (Z.add_0_l j) at 1. rewrite Hlook by exact Hj.
    unfold WigleFacts.file_at. do 2 f_equal.
    rewrite py_slice_window by nia. rewrite Z.add_0_l. reflexivity.
  - intros name Hname. rewrite Hframe; [apply lookup_empty|].
    intros j Hj. rewrite Z.add_0_l. apply Hname, Hj.
Qed.

Example write_loop_files_witness :
  exists fs : files,
    write_loop "/" "out" WigleFacts.Sample.meta WigleFacts.Sample.networks45 20 46 0 0 ∅
    = Some fs /\
    fs !! "out/skylift_3.json"%string
    = Some (SlData.mk WigleFacts.Sample.meta (py_slice WigleFacts.Sample.networks45 40 60)).
Proof.
  destruct (write_loop_files "/" "out" WigleFacts.Sample.meta
              WigleFacts.Sample.networks45 20 46) as (fs & Hrun & Hlook & _).
  - lia.
  - vm_compute. lia.
  - exists fs. split; [exact Hrun|]. apply (Hlook 2). vm_compute. split; congruence.
Defined.

(** *** The command line and the run as a whole *)

Lemma py_int_cases (s : string) :
  (exists n, py_int s = Ok n) \/ py_int s = Raise ValueError.
Proof.
  unfold py_int.
  destruct (match strip s with
            | String "-" s' => option_map Z.opp (int_digits s' 0 false)
            | String "+" s' => int_digits s' 0 false
            | s' => int_digits s' 0 false
            end); eauto.
Qed.

Lemma nets_per_of_arg_cases (argv : list string) :
  (exists n, nets_per_of_arg argv = Ok n) \/ nets_per_of_arg argv = Raise ValueError.
Proof.
  unfold nets_per_of_arg, list_index.
  destruct (nth_error argv 5) as [s|]; [|left; eexists; reflexivity].
  unfold mbind, result_bind.
  destruct (py_int_cases s) as [[n ->] | ->]; eauto.
Qed.

(** X17. The arity check: with fewer than four or more than five
    arguments after the program name the run exits with status 1 before
    anything else is looked at; with four or five, the arguments are either
    all read or the run ends with the [ValueError] of a number that does not
    parse. *)
Theorem parse_args_arity (py_float : string -> result Q) (argv : list string) :
  ((length argv < 5)%nat \/ (6 < length argv)%nat ->
   parse_args py_float argv = Raise (SystemExit 1)) /\
  ((5 <= length argv <= 6)%nat ->
   (forall s e, py_float s = Raise e -> e = ValueError) ->
   (exists a, parse_args py_float argv = Ok a) \/
   parse_args py_float argv = Raise ValueError).
Proof.
  split.
  - intros Hlen. unfold parse_args.
    destruct (Nat.ltb_spec (length argv) 5) as [_ | H5]; [reflexivity|].
    destruct (Nat.ltb_spec 6 (length argv)) as [_ | H6]; [reflexivity | lia].
  - intros Hlen Hfloat. unfold parse_args.
    destruct (Nat.ltb_spec (length argv) 5) as [H5 | _]; [lia|].
    destruct (Nat.ltb_spec 6 (length argv)) as [H6 | _]; [lia|].
    destruct argv as [|a0 [|a1 [|a2 [|a3 [|a4 rest]]]]]; simpl in Hlen; try lia.
    simpl orb. cbv iota.
    change (list_index (a0 :: a1 :: a2 :: a3 :: a4 :: rest) 1) with (Ok a1).
    change (list_index (a0 :: a1 :: a2 :: a3 :: a4 :: rest) 2) with (Ok a2).
    change (list_index (a0 :: a1 :: a2 :: a3 :: a4 :: rest) 3) with (Ok a3).
    change (list_index (a0 :: a1 :: a2 :: a3 :: a4 :: rest) 4) with (Ok a4).
    cbn [mbind result_bind mret result_ret].
    destruct (py_float a3) as [lat|e] eqn:E3;
      [|pose proof (Hfloat _ _ E3); subst e; right; reflexivity].
    cbn [mbind result_bind mret result_ret].
    destruct (py_float a4) as [long|e] eqn:E4;
      [|pose proof (Hfloat _ _ E4); subst e; right; reflexivity].
    cbn [mbind result_bind mret result_ret].
    destruct (nets_per_of_arg_cases (a0 :: a1 :: a2 :: a3 :: a4 :: rest)) as [[n ->] | ->].
    + left. eexists. reflexivity.
    + right. reflexivity.
Qed.

Example parse_args_arity_witness :
  parse_args WigleFacts.float_of_int_literal ["wigle_to_skylift.py"; "wigle.json"; "out"]
  = Raise (SystemExit 1).
Proof.
  destruct (parse_args_arity WigleFacts.float_of_int_literal
              ["wigle_to_skylift.py"; "wigle.json"; "out"]%string) as [Hexit _].
  apply Hexit. left. simpl. lia.
Defined.

(** The conversion loop goes through when geopy takes every point. *)
Lemma convert_all_ok geodesic (point_ok : point -> bool) (target_lat target_long : Q)
    (data : list Raw.t) :
  Forall (fun r => forallb point_ok (points_of target_lat target_long r) = true) data ->
  convert_all geodesic point_ok target_lat target_long data
  = Ok (map (convert geodesic target_lat target_long) data).
Proof.
  induction 1 as [|r data Hr Hall IH]; [reflexivity|].
  simpl convert_all. unfold convert_checked. rewrite Hr.
  cbn [mbind result_bind]. rewrite IH. reflexivity.
Qed.

(** It ends with [ValueError] when geopy refuses a point of some record. *)
Lemma convert_all_raises geodesic (point_ok : point -> bool) (target_lat target_long : Q)
    (data : list Raw.t) :
  Exists (fun r => forallb point_ok (points_of target_lat target_long r) = false) data ->
  convert_all geodesic point_ok target_lat target_long data = Raise ValueError.
Proof.
  induction data as [|r data IH]; intros Hex; [inversion Hex|].
  simpl convert_all. unfold convert_checked.
  destruct (forallb point_ok (points_of target_lat target_long r)) eqn:Er;
    [|reflexivity].
  cbn [mbind result_bind]. rewrite IH; [reflexivity|].
  inversion Hex as [? ? Hbad | ? ? Hrest]; subst; [congruence | exact Hrest].
Qed.

(** X18. The run as a whole, on an input file that was read and has every
    key: an error of the command line ends the run with that error; a point
    of the target or of a record that geopy refuses ends it with
    [ValueError]; both before any file is written.  Otherwise, with a
    positive chunk size, the run ends with the converted records, sorted,
    spread over [ceil(N / K)] files that all carry the meta block of the
    target and the day. *)
Theorem main_outcome (geodesic : point -> point -> Q) (py_float : string -> result Q)
    (os_sep : string) (point_ok : point -> bool) (fuel : nat) (argv : list string)
    (data : list Raw.t) (today : Z) :
  (forall e, parse_args py_float argv = Raise e ->
             main geodesic py_float os_sep point_ok fuel argv data today = Raise e) /\
  (forall a, parse_args py_float argv = Ok a ->
     Exists (fun r => forallb point_ok (points_of (target_lat a) (target_long a) r) = false)
       data ->
     main geodesic py_float os_sep point_ok fuel argv data today = Raise ValueError) /\
  (forall a, parse_args py_float argv = Ok a ->
     Forall (fun r => forallb point_ok (points_of (target_lat a) (target_long a) r) = true)
       data ->
     0 < nets_per_of a -> (length data < fuel)%nat ->
     exists fs : files,
       main geodesic py_float os_sep point_ok fuel argv data today = Ok (Some fs) /\
       WigleFacts.concat_files os_sep (out_dir a) fs = sorted_networks geodesic a data /\
       Z.of_nat (size fs) = ceil_div (Z.of_nat (length data)) (nets_per_of a) /\
       (forall name d, fs !! name = Some d ->
          SlData.meta d = SlMeta.mk "" "" (target_lat a) (target_long a) 1 1 today "wigle")).
Proof.
  split; [|split].
  - intros e He. unfold main. rewrite He. reflexivity.
  - intros a Hargs Hbad. unfold main. rewrite Hargs. cbn [mbind result_bind].
    rewrite (convert_all_raises _ _ _ _ _ Hbad). reflexivity.
  - intros a Hargs Hgood Hk Hfuel.
    assert (Hlen : length (sorted_networks geodesic a data) = length data).
    { unfold sorted_networks. rewrite py_sorted_length. apply length_map. }
    destruct (WigleFacts.write_loop_from_empty os_sep (out_dir a)
                (make_meta (target_lat a) (target_long a) today)
                (sorted_networks geodesic a data) (nets_per_of a) fuel Hk)
      as (fs & Hrun & Hsize & Hlook & Hinv).
    { rewrite Hlen. exact Hfuel. }
    exists fs. split; [|split; [|split]].
    + unfold main. rewrite Hargs. cbn [mbind result_bind].
      rewrite (convert_all_ok _ _ _ _ _ Hgood). cbn [mbind result_bind].
      fold (sorted_networks geodesic a data). rewrite Hrun. reflexivity.
    + eapply WigleFacts.concat_files_chunks; eassumption.
    + rewrite Hsize, Hlen. apply Z2Nat.id, WigleFacts.ceil_div_nonneg; lia.
    + intros name d Hd. destruct (Hinv name d Hd) as (j & _ & _ & ->). reflexivity.
Qed.

(** A stand-in for the check of geopy, for running [main]: the latitude
    lies in [-90, 90]. *)
Definition latitude_in_range (p : point) : bool :=
  float_le (-90) (fst p) && float_le (fst p) 90.

Example main_latitude_refused :
  main GeoMath.taxicab WigleFacts.float_of_int_literal "/" latitude_in_range 46
    ["wigle_to_skylift.py"; "wigle.json"; "out"; "95"; "0"] WigleFacts.Sample.data45 20220101
  = Raise ValueError.
Proof. vm_compute. reflexivity. Qed.

Example main_no_record_no_check :
  main GeoMath.taxicab WigleFacts.float_of_int_literal "/" latitude_in_range 1
    ["wigle_to_skylift.py"; "wigle.json"; "out"; "95"; "0"] [] 20220101
  = Ok (Some ∅).
Proof. reflexivity. Qed.

Example main_outcome_witness :
  (exists fs : files,
      main GeoMath.taxicab WigleFacts.float_of_int_literal "/" latitude_in_range 46
        ["wigle_to_skylift.py"; "wigle.json"; "out"; "3"; "0"]
        WigleFacts.Sample.data45 20220101
      = Ok (Some fs) /\
      Z.of_nat (size fs) = 3) /\
  main GeoMath.taxicab WigleFacts.float_of_int_literal "/" latitude_in_range 46
    ["wigle_to_skylift.py"; "wigle.json"; "out"; "3"; "0"]
    [WigleFacts.Sample.raw 5; WigleFacts.Sample.raw 95] 20220101
  = Raise ValueError.
Proof.
  split.
  - destruct (main_outcome GeoMath.taxicab WigleFacts.float_of_int_literal "/"
                latitude_in_range 46
                ["wigle_to_skylift.py"; "wigle.json"; "out"; "3"; "0"]%string
                WigleFacts.Sample.data45 20220101) as (_ & _ & Hok).
    destruct (Hok (mk_args "wigle.json" "out" 3 0 20)) as (fs & Hrun & _ & Hsize & _).
    + reflexivity.
    + apply List.Forall_forall. intros r Hr.
      apply in_map_iff in Hr as (k & <- & Hk%in_seq).
      unfold points_of, latitude_in_range, float_le. simpl.
      assert (Hlat : Qle_bool (-90) (Z.of_nat k # 1) = true /\
                     Qle_bool (Z.of_nat k # 1) 90 = true).
      { rewrite !Qle_bool_iff. unfold Qle. simpl. lia. }
      destruct Hlat as [-> ->]. reflexivity.
    + simpl. lia.
    + vm_compute. lia.
    + exists fs. split; [exact Hrun|]. rewrite Hsize. reflexivity.
  - destruct (main_outcome GeoMath.taxicab WigleFacts.float_of_int_literal "/"
                latitude_in_range 46
                ["wigle_to_skylift.py"; "wigle.json"; "out"; "3"; "0"]%string
                [WigleFacts.Sample.raw 5; WigleFacts.Sample.raw 95] 20220101)
      as (_ & Hbad & _).
    apply (Hbad (mk_args "wigle.json" "out" 3 0 20)); [reflexivity|].
    apply Exists_cons_tl, Exists_cons_hd. reflexivity.
Defined.

End WigleMore.
